(** * certgen: self-signed X.509 certificate pairs

    A shallow embedding of package [certgen] (the curve names, the
    parameter record, [genCertPair], [pemBlockForKey], [GenerateToMemory]) and
    of the parameter construction of [cmd/certgen/main.go], with the
    properties of the specification proved about it.

    Go values are modelled as the code has them: [int] and [big.Int] as [Z],
    [string] as [string] (a sequence of bytes), [[]byte] as a list of bytes
    held in [Z], a nil slice or nil error as [None], the dynamically typed
    private key ([interface{}]) as a three-way variant.  The Go standard
    library is not part of the repository: what the package calls in it is
    an interface ([GoLib]) over which every general theorem quantifies. *)

From Stdlib Require Import ZArith List String Ascii Bool Lia.
Import ListNotations.

Local Open Scope string_scope.
Local Open Scope Z_scope.

(** ** Go-level conventions *)

(** An [error] is observed through its message ([err.Error()]). *)
Definition error := string.

(** [[]byte]. *)
Definition bytes := list Z.

(** The [(value, error)] pair a library call returns, of which exactly one
    side is meaningful. *)
Inductive result (A : Type) : Type :=
| Ok (a : A)
| Err (e : error).
Arguments Ok {A} a.
Arguments Err {A} e.

(** How a call ends: it returns, it terminates the process ([os.Exit],
    [log.Fatalf]) after writing to standard error, or it panics. *)
Inductive outcome (A : Type) : Type :=
| Returns (a : A)
| Exits (status : Z) (stderr : string)
| Panics.
Arguments Returns {A} a.
Arguments Exits {A} status stderr.
Arguments Panics {A}.

(** [fmt.Errorf(format ++ "%s", err)]: the message is the prefix followed by
    the cause. *)
Definition fmt_Errorf (format : string) (cause : error) : error :=
  format ++ cause.

(** The line feed that ends a message. *)
Definition newline : string := String (ascii_of_nat 10) EmptyString.

(** ** ECDSA curve names *)

(** [type ECDSACurve int] with its four [iota] constants. *)
Definition ECDSACurve := Z.

Definition P224 : ECDSACurve := 0.
Definition P256 : ECDSACurve := 1.
Definition P384 : ECDSACurve := 2.
Definition P521 : ECDSACurve := 3.

(** [func (e ECDSACurve) String() string]. *)
Definition ECDSACurve_String (e : ECDSACurve) : string :=
  if e =? P224 then "P224"
  else if e =? P256 then "P256"
  else if e =? P384 then "P384"
  else if e =? P521 then "P521"
  else "".

(** [func ECDSACurveFromString(s string) (ECDSACurve, error)]. *)
Definition ECDSACurveFromString (s : string) : ECDSACurve * option error :=
  if String.eqb s "P224" then (P224, None)
  else if String.eqb s "P256" then (P256, None)
  else if String.eqb s "P384" then (P384, None)
  else if String.eqb s "P521" then (P521, None)
  else (P224, Some "Invalid or Not supported ECDSA Curve").

(** ** [strings.Split] with a one-byte separator *)

(** [split_from sep s cur]: [cur] holds the bytes already read of the
    segment in progress. *)
Fixpoint split_from (sep : ascii) (s : string) (cur : string) : list string :=
  match s with
  | EmptyString => [cur]
  | String c rest =>
      if Ascii.eqb c sep
      then cur :: split_from sep rest EmptyString
      else split_from sep rest (cur ++ String c EmptyString)
  end.

(** [strings.Split(s, ",")]: the substrings between the commas, one more
    than there are commas. *)
Definition strings_Split_comma (s : string) : list string :=
  split_from ","%char s EmptyString.

(** ** The parts of [crypto/x509], [crypto/elliptic] and [encoding/pem] the package names *)

(** [type IP []byte]. *)
Definition IP := bytes.

(** [x509.KeyUsage] is a bit set; its constants are [1 << iota]. *)
Definition KeyUsage := Z.
Definition KeyUsageDigitalSignature : KeyUsage := Z.shiftl 1 0.
Definition KeyUsageContentCommitment : KeyUsage := Z.shiftl 1 1.
Definition KeyUsageKeyEncipherment : KeyUsage := Z.shiftl 1 2.
Definition KeyUsageDataEncipherment : KeyUsage := Z.shiftl 1 3.
Definition KeyUsageKeyAgreement : KeyUsage := Z.shiftl 1 4.
Definition KeyUsageCertSign : KeyUsage := Z.shiftl 1 5.
Definition KeyUsageCRLSign : KeyUsage := Z.shiftl 1 6.

(** [u] includes the usage [k] when [u & k != 0]. *)
Definition has_usage (u k : KeyUsage) : bool := negb (Z.land u k =? 0).

Inductive ExtKeyUsage : Type :=
| ExtKeyUsageAny
| ExtKeyUsageServerAuth
| ExtKeyUsageClientAuth.

(** The named curves of [crypto/elliptic]. *)
Inductive elliptic_Curve : Type :=
| elliptic_P224
| elliptic_P256
| elliptic_P384
| elliptic_P521.

(** [pkix.Name], of which only the organization is set. *)
Record pkix_Name : Type := {
  Organization : list string
}.

(** The fields of [x509.Certificate] the template sets; the others keep
    their zero value. *)
Record Certificate (Time : Type) : Type := {
  SerialNumber : Z;
  Subject : pkix_Name;
  NotBefore : Time;
  NotAfter : Time;
  KeyUsageOf : KeyUsage;
  ExtKeyUsageOf : list ExtKeyUsage;
  BasicConstraintsValid : bool;
  IsCAOf : bool;
  IPAddresses : list IP;
  DNSNames : list string
}.
Arguments SerialNumber {Time} _.
Arguments Subject {Time} _.
Arguments NotBefore {Time} _.
Arguments NotAfter {Time} _.
Arguments KeyUsageOf {Time} _.
Arguments ExtKeyUsageOf {Time} _.
Arguments BasicConstraintsValid {Time} _.
Arguments IsCAOf {Time} _.
Arguments IPAddresses {Time} _.
Arguments DNSNames {Time} _.

(** [pem.Block] without headers. *)
Record pem_Block : Type := {
  BlockType : string;
  BlockBytes : bytes
}.

(** The private key as [genCertPair] holds it: an [interface{}] that is a
    [*rsa.PrivateKey], an [*ecdsa.PrivateKey] or nil. *)
Inductive PrivateKey (R E : Type) : Type :=
| RsaPriv (k : R)
| EcdsaPriv (k : E)
| NilPriv.
Arguments RsaPriv {R E} k.
Arguments EcdsaPriv {R E} k.
Arguments NilPriv {R E}.

(** What [publicKey] returns, again an [interface{}]. *)
Inductive PublicKey (R E : Type) : Type :=
| RsaPub (k : R)
| EcdsaPub (k : E)
| NilPub.
Arguments RsaPub {R E} k.
Arguments EcdsaPub {R E} k.
Arguments NilPub {R E}.

(** [time.Duration]: a count of nanoseconds. *)
Definition Duration := Z.

(** [time.Hour]. *)
Definition time_Hour : Duration := 3600 * 1000000000.

(** ** The standard library the package runs against

    [Reader] is the state of [crypto/rand.Reader], the one piece of state
    the package touches: every call that draws entropy takes the state and
    returns the next one. *)
Record GoLib : Type := {
  Reader : Type;
  Time : Type;
  RsaPrivateKey : Type;
  RsaPublicKey : Type;
  EcdsaPrivateKey : Type;
  EcdsaPublicKey : Type;
  time_Add : Time -> Duration -> Time;
  time_Parse : string -> string -> result Time;
  net_ParseIP : string -> option IP;
  rsa_GenerateKey : Reader -> Z -> result RsaPrivateKey * Reader;
  ecdsa_GenerateKey :
    elliptic_Curve -> Reader -> result EcdsaPrivateKey * Reader;
  rsa_Public : RsaPrivateKey -> RsaPublicKey;
  ecdsa_Public : EcdsaPrivateKey -> EcdsaPublicKey;
  rand_Int : Reader -> Z -> result Z * Reader;
  x509_CreateCertificate :
    Reader -> Certificate Time -> Certificate Time ->
    PublicKey RsaPublicKey EcdsaPublicKey ->
    PrivateKey RsaPrivateKey EcdsaPrivateKey -> result bytes * Reader;
  x509_MarshalPKCS1PrivateKey : RsaPrivateKey -> bytes;
  x509_MarshalECPrivateKey : EcdsaPrivateKey -> result bytes;
  pem_EncodeToMemory : pem_Block -> option bytes
}.

(** The contract of [crypto/rand.Int]: a value it returns for a positive
    bound lies in [[0, max)]. *)
Definition rand_Int_in_range (L : GoLib) : Prop :=
  forall (rd rd' : Reader L) (max n : Z),
    0 < max -> rand_Int L rd max = (Ok n, rd') -> 0 <= n < max.

(** ** Package [certgen] *)

Section Package.

Context (L : GoLib).

Local Abbreviation Priv := (PrivateKey (RsaPrivateKey L) (EcdsaPrivateKey L)).
Local Abbreviation Pub := (PublicKey (RsaPublicKey L) (EcdsaPublicKey L)).
Local Abbreviation Template := (Certificate (Time L)).

(** [type CertParams struct]. *)
Record CertParams : Type := {
  Hosts : string;
  ValidFrom : Time L;
  ValidFor : Duration;
  IsCA : bool;
  Rsa : bool;
  RsaBits : Z;
  EcdsaCurve : ECDSACurve
}.

(** [func NewDefaultParams() *CertParams], [now] being what [time.Now()]
    reads. *)
Definition NewDefaultParams (now : Time L) : CertParams :=
  {| Hosts := "localhost";
     ValidFrom := now;
     ValidFor := 365 * 24 * time_Hour;
     IsCA := false;
     Rsa := true;
     RsaBits := 2048;
     EcdsaCurve := P256 |}.

(** [func (cp *CertParams) notAfter() time.Time]. *)
Definition notAfter (cp : CertParams) : Time L :=
  time_Add L (ValidFrom cp) (ValidFor cp).

(** [func publicKey(priv interface{}) interface{}]. *)
Definition publicKey (priv : Priv) : Pub :=
  match priv with
  | RsaPriv k => RsaPub (rsa_Public L k)
  | EcdsaPriv k => EcdsaPub (ecdsa_Public L k)
  | NilPriv => NilPub
  end.

(** [func pemBlockForKey(priv interface{}) *pem.Block]: [None] is the nil
    block of the default case; a failure to marshal an ECDSA key writes to
    standard error and exits with status 2. *)
Definition pemBlockForKey (priv : Priv) : outcome (option pem_Block) :=
  match priv with
  | RsaPriv k =>
      Returns (Some {| BlockType := "RSA PRIVATE KEY";
                       BlockBytes := x509_MarshalPKCS1PrivateKey L k |})
  | EcdsaPriv k =>
      match x509_MarshalECPrivateKey L k with
      | Err err =>
          Exits 2 (fmt_Errorf "Unable to marshal ECDSA private key: " err)
      | Ok b =>
          Returns (Some {| BlockType := "EC PRIVATE KEY"; BlockBytes := b |})
      end
  | NilPriv => Returns None
  end.

(** The assignment [priv, err = ...] from a library key generator. *)
Definition assign_key {K : Type} (inj : K -> Priv)
    (r : result K * Reader L) : (Priv * option error) * Reader L :=
  match r with
  | (Ok k, rd) => ((inj k, None), rd)
  | (Err e, rd) => ((NilPriv, Some e), rd)
  end.

(** The first statement of [genCertPair]: the [if cp.Rsa] with the
    [switch cp.EcdsaCurve] in its else branch.  The switch has no default
    case: on any other value [priv] and [err] keep their zero value and
    no entropy is drawn. *)
Definition generateKey (cp : CertParams) (rd : Reader L)
  : (Priv * option error) * Reader L :=
  if Rsa cp then
    assign_key RsaPriv (rsa_GenerateKey L rd (RsaBits cp))
  else if EcdsaCurve cp =? P224 then
    assign_key EcdsaPriv (ecdsa_GenerateKey L elliptic_P224 rd)
  else if EcdsaCurve cp =? P256 then
    assign_key EcdsaPriv (ecdsa_GenerateKey L elliptic_P256 rd)
  else if EcdsaCurve cp =? P384 then
    assign_key EcdsaPriv (ecdsa_GenerateKey L elliptic_P384 rd)
  else if EcdsaCurve cp =? P521 then
    assign_key EcdsaPriv (ecdsa_GenerateKey L elliptic_P521 rd)
  else
    ((NilPriv, None), rd).

(** The body of [for _, h := range hosts]. *)
Definition addHost (template : Template) (h : string) : Template :=
  match net_ParseIP L h with
  | Some ip =>
      {| SerialNumber := SerialNumber template;
         Subject := Subject template;
         NotBefore := NotBefore template;
         NotAfter := NotAfter template;
         KeyUsageOf := KeyUsageOf template;
         ExtKeyUsageOf := ExtKeyUsageOf template;
         BasicConstraintsValid := BasicConstraintsValid template;
         IsCAOf := IsCAOf template;
         IPAddresses := IPAddresses template ++ [ip];
         DNSNames := DNSNames template |}
  | None =>
      {| SerialNumber := SerialNumber template;
         Subject := Subject template;
         NotBefore := NotBefore template;
         NotAfter := NotAfter template;
         KeyUsageOf := KeyUsageOf template;
         ExtKeyUsageOf := ExtKeyUsageOf template;
         BasicConstraintsValid := BasicConstraintsValid template;
         IsCAOf := IsCAOf template;
         IPAddresses := IPAddresses template;
         DNSNames := DNSNames template ++ [h] |}
  end.

(** The body of [if cp.IsCA]. *)
Definition markCA (template : Template) : Template :=
  {| SerialNumber := SerialNumber template;
     Subject := Subject template;
     NotBefore := NotBefore template;
     NotAfter := NotAfter template;
     KeyUsageOf := Z.lor (KeyUsageOf template) KeyUsageCertSign;
     ExtKeyUsageOf := ExtKeyUsageOf template;
     BasicConstraintsValid := BasicConstraintsValid template;
     IsCAOf := true;
     IPAddresses := IPAddresses template;
     DNSNames := DNSNames template |}.

(** The template as [genCertPair] builds it once the serial number is
    drawn: the composite literal, the loop over the hosts, the CA
    branch. *)
Definition newTemplate (cp : CertParams) (serialNumber : Z) : Template :=
  let template :=
    {| SerialNumber := serialNumber;
       Subject := {| Organization := ["Acme Co"] |};
       NotBefore := ValidFrom cp;
       NotAfter := notAfter cp;
       KeyUsageOf := Z.lor KeyUsageKeyEncipherment KeyUsageDigitalSignature;
       ExtKeyUsageOf := [ExtKeyUsageServerAuth];
       BasicConstraintsValid := true;
       IsCAOf := false;
       IPAddresses := [];
       DNSNames := [] |} in
  let hosts := strings_Split_comma (Hosts cp) in
  let template := fold_left addHost hosts template in
  if IsCA cp then markCA template else template.

(** [genCertPair] up to the call of [x509.CreateCertificate]: the key,
    the serial number, the template. *)
Definition genCertPair_template (cp : CertParams) (rd : Reader L)
  : result (Priv * Template) * Reader L :=
  let '((priv, err), rd1) := generateKey cp rd in
  match err with
  | Some e => (Err (fmt_Errorf "failed to generate private key: " e), rd1)
  | None =>
      let serialNumberLimit := Z.shiftl 1 128 in
      match rand_Int L rd1 serialNumberLimit with
      | (Err e, rd2) =>
          (Err (fmt_Errorf "failed to generate serial number: " e), rd2)
      | (Ok serialNumber, rd2) =>
          (Ok (priv, newTemplate cp serialNumber), rd2)
      end
  end.

(** [func genCertPair(cp *CertParams) (interface{}, []byte, error)]: the
    three results as Go returns them, nil being [NilPriv] and [None]. *)
Definition genCertPair (cp : CertParams) (rd : Reader L)
  : (Priv * option bytes * option error) * Reader L :=
  match genCertPair_template cp rd with
  | (Err e, rd2) => ((NilPriv, None, Some e), rd2)
  | (Ok (priv, template), rd2) =>
      match x509_CreateCertificate L rd2 template template
              (publicKey priv) priv with
      | (Err e, rd3) =>
          ((NilPriv, None,
            Some (fmt_Errorf "Failed to create certificate: " e)), rd3)
      | (Ok derBytes, rd3) => ((priv, Some derBytes, None), rd3)
      end
  end.

(** A [[]byte] read as a sequence: the nil slice is empty. *)
Definition slice (b : option bytes) : bytes :=
  match b with
  | Some l => l
  | None => []
  end.

(** [func GenerateToMemory(cp *CertParams) (cert []byte, key []byte, err error)].
    [pem.EncodeToMemory] dereferences its block, so the nil block of
    [pemBlockForKey] makes it panic. *)
Definition GenerateToMemory (cp : CertParams) (rd : Reader L)
  : outcome (option bytes * option bytes * option error) * Reader L :=
  let '((priv, derBytes, err), rd') := genCertPair cp rd in
  match err with
  | Some e => (Returns (None, None, Some e), rd')
  | None =>
      let cert :=
        pem_EncodeToMemory L
          {| BlockType := "CERTIFICATE"; BlockBytes := slice derBytes |} in
      match pemBlockForKey priv with
      | Returns (Some block) =>
          (Returns (cert, pem_EncodeToMemory L block, None), rd')
      | Returns None => (Panics, rd')
      | Exits status msg => (Exits status msg, rd')
      | Panics => (Panics, rd')
      end
  end.

(** ** [cmd/certgen]: from the flags to the parameters *)

Record Flags : Type := {
  host : string;
  validFrom : string;
  validFor : Duration;
  isCA : bool;
  rsaBits : Z;
  ecdsaCurve : string;
  certFile : string;
  keyFile : string
}.

(** The key-selection statement of [main]: what it assigns to [cp.Rsa],
    [cp.RsaBits] and [cp.EcdsaCurve], the field left alone keeping the
    zero value of [&certgen.CertParams{}]. *)
Definition main_key_selection (f : Flags) : bool * Z * ECDSACurve :=
  let '(ecdsa, err) := ECDSACurveFromString (ecdsaCurve f) in
  match err with
  | Some _ => (true, rsaBits f, 0)
  | None => (false, 0, ecdsa)
  end.

(** [main] up to the call of [GenerateToFile]: the parameters it hands
    over, or the exit on a missing host or an unreadable start date.
    [now] is what [time.Now()] reads; of what [log.Fatalf] prints, the
    message is kept and the date in front of it is not. *)
Definition main_params (f : Flags) (now : Time L) : outcome CertParams :=
  if Z.of_nat (String.length (host f)) =? 0 then
    Exits 1 "Missing required --host parameter"
  else
    let '(rsa, bits, curve) := main_key_selection f in
    let from :=
      if Z.of_nat (String.length (validFrom f)) =? 0 then Ok now
      else time_Parse L "Jan 2 15:04:05 2006" (validFrom f) in
    match from with
    | Err err =>
        Exits 1 (fmt_Errorf "Failed to parse creation date: " err ++ newline)
    | Ok t =>
        Returns {| Hosts := host f;
                   ValidFrom := t;
                   ValidFor := validFor f;
                   IsCA := isCA f;
                   Rsa := rsa;
                   RsaBits := bits;
                   EcdsaCurve := curve |}
    end.

End Package.

Arguments Hosts {L} _.
Arguments ValidFrom {L} _.
Arguments ValidFor {L} _.
Arguments IsCA {L} _.
Arguments Rsa {L} _.
Arguments RsaBits {L} _.
Arguments EcdsaCurve {L} _.

(** ** An executable instance of the library

    [Sim.lib] inhabits [GoLib] so that the package can be run on concrete
    inputs.  IP literals and [rand.Int] follow the algorithms of [net] and
    [crypto/rand]; the cryptographic primitives are deterministic
    stand-ins: entropy is a finite list of bytes, a key is the bytes it
    was drawn from, a certificate is a tag followed by the public key. *)
Module Sim.

Definition code (c : ascii) : Z := Z.of_nat (nat_of_ascii c).

Definition between (lo hi : string) (c : ascii) : bool :=
  match lo, hi with
  | String l _, String h _ => (code l <=? code c) && (code c <=? code h)
  | _, _ => false
  end.

(** Bigger than any value the parsers accept. *)
Definition big : Z := 0xFFFFFF.

(** [dtoi]: the decimal number at the head of [s], what follows it, the
    count of digits, and whether there was a number below [big]. *)
Fixpoint dtoi_from (s : string) (n : Z) (i : nat) : Z * string * nat * bool :=
  match s with
  | String c rest =>
      if between "0" "9" c then
        let n' := n * 10 + (code c - code "0"%char) in
        if big <=? n' then (big, s, i, false) else dtoi_from rest n' (S i)
      else
        match i with O => (0, s, O, false) | _ => (n, s, i, true) end
  | EmptyString =>
      match i with O => (0, s, O, false) | _ => (n, s, i, true) end
  end.

Definition dtoi (s : string) : Z * string * nat * bool := dtoi_from s 0 O.

(** [xtoi]: the same for a hexadecimal number. *)
Fixpoint xtoi_from (s : string) (n : Z) (i : nat) : Z * string * nat * bool :=
  let stop := match i with O => (0, s, O, false) | _ => (n, s, i, true) end in
  match s with
  | String c rest =>
      let digit :=
        if between "0" "9" c then Some (code c - code "0"%char)
        else if between "a" "f" c then Some (code c - code "a"%char + 10)
        else if between "A" "F" c then Some (code c - code "A"%char + 10)
        else None in
      match digit with
      | Some d =>
          let n' := n * 16 + d in
          if big <=? n' then (0, s, i, false) else xtoi_from rest n' (S i)
      | None => stop
      end
  | EmptyString => stop
  end.

Definition xtoi (s : string) : Z * string * nat * bool := xtoi_from s 0 O.

(** The four fields of a dotted-decimal address. *)
Fixpoint parseIPv4_fields (fields : nat) (first : bool) (s : string)
    (p : list Z) : option (list Z) :=
  match fields with
  | O => match s with EmptyString => Some p | _ => None end
  | S fields' =>
      let after_dot :=
        match s with
        | EmptyString => None
        | String c rest =>
            if first then Some s
            else if Ascii.eqb c "."%char then Some rest else None
        end in
      match after_dot with
      | None => None
      | Some s1 =>
          let '(n, rest, _, ok) := dtoi s1 in
          if negb ok || (0xFF <? n) then None
          else parseIPv4_fields fields' false rest (p ++ [n])%list
      end
  end.

(** [net.IPv4(a, b, c, d)]: the 16-byte form of an IPv4 address. *)
Definition v4InV6Prefix : list Z := [0; 0; 0; 0; 0; 0; 0; 0; 0; 0; 255; 255].

Definition parseIPv4 (s : string) : option IP :=
  match parseIPv4_fields 4 true s [] with
  | Some p => Some (v4InV6Prefix ++ p)%list
  | None => None
  end.

Definition starts_with (c : ascii) (s : string) : bool :=
  match s with
  | String c' _ => Ascii.eqb c c'
  | EmptyString => false
  end.

Definition is_empty (s : string) : bool :=
  match s with
  | EmptyString => true
  | _ => false
  end.

(** The loop of [parseIPv6] over the 16-bit groups: [ip] holds the bytes
    stored so far, [ellipsis] the position of [::] if it was met.  [None]
    is the early [return nil]; otherwise the state the loop ends in. *)
Fixpoint parseIPv6_groups (groups : nat) (s : string) (ip : list Z)
    (ellipsis : option nat) : option (string * list Z * option nat) :=
  match groups with
  | O => Some (s, ip, ellipsis)
  | S groups' =>
      let i := List.length ip in
      let '(n, rest, _, ok) := xtoi s in
      if negb ok || (0xFFFF <? n) then None
      else if starts_with "."%char rest then
        if (match ellipsis with None => true | Some _ => false end)
           && negb (Nat.eqb i 12) then None
        else if Nat.ltb 16 (i + 4) then None
        else
          match parseIPv4 s with
          | None => None
          | Some ip4 => Some (EmptyString, (ip ++ skipn 12 ip4)%list, ellipsis)
          end
      else
        let ip' := (ip ++ [Z.shiftr n 8; Z.land n 255])%list in
        match rest with
        | EmptyString => Some (EmptyString, ip', ellipsis)
        | String c after =>
            if negb (Ascii.eqb c ":"%char) || is_empty after then None
            else if starts_with ":"%char after then
              match ellipsis, after with
              | Some _, _ => None
              | None, String _ after' =>
                  if is_empty after'
                  then Some (EmptyString, ip', Some (List.length ip'))
                  else parseIPv6_groups groups' after' ip'
                         (Some (List.length ip'))
              | None, EmptyString => None
              end
            else parseIPv6_groups groups' after ip' ellipsis
        end
  end.

(** What [parseIPv6] does once the loop has ended. *)
Definition parseIPv6_finish (st : string * list Z * option nat) : option IP :=
  let '(s, ip, ellipsis) := st in
  if negb (is_empty s) then None
  else if Nat.ltb (List.length ip) 16 then
    match ellipsis with
    | None => None
    | Some e =>
        Some (firstn e ip ++ repeat 0 (16 - List.length ip) ++ skipn e ip)%list
    end
  else
    match ellipsis with
    | None => Some ip
    | Some _ => None
    end.

Definition parseIPv6 (s : string) : option IP :=
  match s with
  | String ":" (String ":" rest) =>
      if is_empty rest then Some (repeat 0 16)
      else
        match parseIPv6_groups 8 rest [] (Some O) with
        | None => None
        | Some st => parseIPv6_finish st
        end
  | _ =>
      match parseIPv6_groups 8 s [] None with
      | None => None
      | Some st => parseIPv6_finish st
      end
  end.

(** [net.ParseIP]: the first [.] or [:] decides which syntax the whole
    string is read in; a string with neither is no address. *)
Fixpoint ParseIP_scan (whole s : string) : option IP :=
  match s with
  | EmptyString => None
  | String c rest =>
      if Ascii.eqb c "."%char then parseIPv4 whole
      else if Ascii.eqb c ":"%char then parseIPv6 whole
      else ParseIP_scan whole rest
  end.

Definition ParseIP (s : string) : option IP := ParseIP_scan s s.

(** Entropy: the bytes [rand.Reader] has left to give. *)
Definition entropy := list Z.

(** [io.ReadFull] of [k] bytes. *)
Definition ReadFull (k : nat) (rd : entropy) : result bytes * entropy :=
  if Nat.ltb (List.length rd) k then
    (Err (match rd with [] => "EOF" | _ => "unexpected EOF" end), [])
  else (Ok (firstn k rd), skipn k rd).

(** [big.Int.BitLen] and [big.Int.SetBytes] (big-endian). *)
Definition BitLen (n : Z) : Z := if n =? 0 then 0 else Z.log2 n + 1.

Definition SetBytes (b : bytes) : Z :=
  fold_left (fun acc x => acc * 256 + x mod 256) b 0.

(** The loop of [rand.Int]: read [k] bytes, clear the bits of the first one
    above bit [b], keep the candidate if it is below [max]. *)
Fixpoint Int_loop (tries : nat) (rd : entropy) (max : Z) (k : nat) (b : Z)
  : result Z * entropy :=
  match tries with
  | O => (Err "EOF", rd)
  | S tries' =>
      match ReadFull k rd with
      | (Err e, rd') => (Err e, rd')
      | (Ok bs, rd') =>
          let masked :=
            match bs with
            | b0 :: tl => Z.land b0 (Z.shiftl 1 b - 1) :: tl
            | [] => []
            end in
          let n := SetBytes masked in
          if n <? max then (Ok n, rd') else Int_loop tries' rd' max k b
      end
  end.

(** [rand.Int(rand.Reader, max)].  Go panics on [max <= 0], which the
    interface renders as an error. *)
Definition Int (rd : entropy) (max : Z) : result Z * entropy :=
  if max <=? 0 then (Err "crypto/rand: argument to Int is <= 0", rd)
  else
    let bitLen := BitLen (max - 1) in
    if bitLen =? 0 then (Ok 0, rd)
    else
      let k := Z.to_nat ((bitLen + 7) / 8) in
      let b := if bitLen mod 8 =? 0 then 8 else bitLen mod 8 in
      Int_loop (S (List.length rd)) rd max k b.

(** Stand-in key generation: a key of [bits] bits is the next [bits / 8]
    bytes of entropy; too short a length is refused. *)
Definition GenerateKey_rsa (rd : entropy) (bits : Z) : result bytes * entropy :=
  if bits <? 16 then
    (Err "crypto/rsa: too few primes of given length to generate an RSA key",
     rd)
  else ReadFull (Z.to_nat (bits / 8)) rd.

Definition curve_bytes (c : elliptic_Curve) : nat :=
  match c with
  | elliptic_P224 => 28
  | elliptic_P256 => 32
  | elliptic_P384 => 48
  | elliptic_P521 => 66
  end.

Definition GenerateKey_ecdsa (c : elliptic_Curve) (rd : entropy)
  : result bytes * entropy :=
  ReadFull (curve_bytes c) rd.

Definition key_bytes (pub : PublicKey bytes bytes) : bytes :=
  match pub with
  | RsaPub k => k
  | EcdsaPub k => k
  | NilPub => []
  end.

(** Stand-in signing: a nil key is refused as [x509.CreateCertificate]
    refuses a key that is no [crypto.Signer]; validity dates are not
    looked at. *)
Definition CreateCertificate (rd : entropy) (template parent : Certificate Z)
    (pub : PublicKey bytes bytes) (priv : PrivateKey bytes bytes)
  : result bytes * entropy :=
  match priv with
  | NilPriv =>
      (Err "x509: certificate private key does not implement crypto.Signer",
       rd)
  | _ => (Ok (48 :: key_bytes pub), rd)
  end.

(** Stand-in for [x509.MarshalECPrivateKey], which refuses a key on a
    curve it does not know: here, a key of no curve's length. *)
Definition MarshalECPrivateKey (k : bytes) : result bytes :=
  if existsb (fun c => Nat.eqb (List.length k) (curve_bytes c))
       [elliptic_P224; elliptic_P256; elliptic_P384; elliptic_P521]
  then Ok k
  else Err "x509: unknown elliptic curve".

Definition string_bytes (s : string) : bytes :=
  map code (list_ascii_of_string s).

(** Stand-in armour: the BEGIN line followed by the bytes as they are. *)
Definition EncodeToMemory (b : pem_Block) : option bytes :=
  Some (string_bytes ("-----BEGIN " ++ BlockType b ++ "-----") ++ BlockBytes b)%list.

Definition lib : GoLib :=
  {| Reader := entropy;
     Time := Z;
     RsaPrivateKey := bytes;
     RsaPublicKey := bytes;
     EcdsaPrivateKey := bytes;
     EcdsaPublicKey := bytes;
     time_Add := Z.add;
     time_Parse := fun _ value => Err ("parsing time " ++ value);
     net_ParseIP := ParseIP;
     rsa_GenerateKey := GenerateKey_rsa;
     ecdsa_GenerateKey := GenerateKey_ecdsa;
     rsa_Public := fun k => k;
     ecdsa_Public := fun k => k;
     rand_Int := Int;
     x509_CreateCertificate := CreateCertificate;
     x509_MarshalPKCS1PrivateKey := fun k => k;
     x509_MarshalECPrivateKey := MarshalECPrivateKey;
     pem_EncodeToMemory := EncodeToMemory |}.

(** Parameters over [lib], in the order of the fields of [CertParams]. *)
Definition params (hosts : string) (from : Z) (length : Duration)
    (ca rsa : bool) (bits : Z) (curve : ECDSACurve) : CertParams lib :=
  Build_CertParams lib hosts from length ca rsa bits curve.

(** A supply of entropy: the bytes [0, 1, ..., n-1] modulo 256. *)
Definition counting (n : nat) : entropy :=
  map (fun i => Z.of_nat i mod 256) (seq 0 n).

End Sim.


(** ** The properties, in the words of the specification *)

(** The four curve values and their names. *)
Definition supported_curves : list ECDSACurve := [P224; P256; P384; P521].
Definition curve_names : list string := ["P224"; "P256"; "P384"; "P521"].

(** The IP SANs of a host list: the entries that parse as an address, as
    parsed, in input order. *)
Definition ip_sans (L : GoLib) (hosts : list string) : list IP :=
  flat_map (fun h => match net_ParseIP L h with
                     | Some ip => [ip]
                     | None => []
                     end) hosts.

(** The DNS-name SANs: the entries that do not parse, in input order. *)
Definition dns_sans (L : GoLib) (hosts : list string) : list string :=
  filter (fun h => match net_ParseIP L h with
                   | Some _ => false
                   | None => true
                   end) hosts.

(** The number of commas of a string. *)
Fixpoint commas (s : string) : nat :=
  match s with
  | EmptyString => O
  | String c rest =>
      if Ascii.eqb c ","%char then S (commas rest) else commas rest
  end.

(** The error of a call that stopped before the template was built: the
    key could not be generated or the serial number could not be drawn. *)
Definition before_template (e : error) : Prop :=
  exists cause : error,
    e = fmt_Errorf "failed to generate private key: " cause \/
    e = fmt_Errorf "failed to generate serial number: " cause.

(** The error [genCertPair] returns when the key could not be generated. *)
Definition is_key_generation_error (e : error) : bool :=
  String.prefix "failed to generate private key: " e.

(** The error a call of [genCertPair_template] ends with, if any. *)
Definition template_error (L : GoLib) (cp : CertParams L) (rd : Reader L)
  : option error :=
  match fst (genCertPair_template L cp rd) with
  | Ok _ => None
  | Err e => Some e
  end.

(** [cp] with another validity duration. *)
Definition with_ValidFor (L : GoLib) (cp : CertParams L) (d : Duration)
  : CertParams L :=
  Build_CertParams L (Hosts cp) (ValidFrom cp) d (IsCA cp) (Rsa cp)
    (RsaBits cp) (EcdsaCurve cp).

(** The bound of the serial number. *)
Definition serial_limit : Z := 2 ^ 128.

(** [P] holds of the template of the call.  A call that stops before the
    template stops with the error of the key or of the serial number, and
    the template it builds otherwise satisfies [P]; and the call does
    build a template, around the number drawn, whenever the key is
    generated and the serial number drawn. *)
Definition always_in_template (L : GoLib) (cp : CertParams L)
    (rd : Reader L) (P : Certificate (Time L) -> Prop) : Prop :=
  match genCertPair_template L cp rd with
  | (Ok (_, t), _) => P t
  | (Err e, _) => before_template e
  end /\
  match generateKey L cp rd with
  | ((priv, None), rd1) =>
      match rand_Int L rd1 serial_limit with
      | (Ok n, rd2) =>
          exists t : Certificate (Time L),
            genCertPair_template L cp rd = (Ok (priv, t), rd2) /\
            SerialNumber t = n /\
            P t
      | (Err _, _) => True
      end
  | ((_, Some _), _) => True
  end.

(** [cp] with another host string. *)
Definition with_Hosts (L : GoLib) (cp : CertParams L) (hosts : string)
  : CertParams L :=
  Build_CertParams L hosts (ValidFrom cp) (ValidFor cp) (IsCA cp) (Rsa cp)
    (RsaBits cp) (EcdsaCurve cp).

(** ** Files, writers and the log

    [GenerateToFile], [GenerateToWriter] and [main] act on the world
    outside the process.  A call is a tree of the system calls it makes,
    each node holding what the call does with every answer it can get; an
    execution walks the tree along the answers the world gives and leaves
    the trace of the calls made. *)

(** The flags of [os.OpenFile] the package uses; [a | b] is the list. *)
Inductive open_flag : Type :=
| O_WRONLY
| O_CREATE
| O_TRUNC.

(** The permission bits [0600]. *)
Definition perm_0600 : Z := 6 * 8 * 8.

Section Adapters.

Context (L : GoLib).

(** [Handle] stands for the [*os.File] values the world hands out and the
    [io.Writer] values a caller supplies. *)
Context (Handle : Type).

Inductive sys (A : Type) : Type :=
| Done (o : outcome A)
| os_Create (name : string) (k : result Handle -> sys A)
| os_OpenFile (name : string) (flag : list open_flag) (perm : Z)
    (k : result Handle -> sys A)
| pem_Encode (out : Handle) (b : pem_Block) (k : option error -> sys A)
| pem_Encode_nil (out : Handle) (k : sys A)
| file_Close (f : Handle) (k : sys A)
| log_Printf (msg : string) (k : sys A)
| fmt_Printf (msg : string) (k : sys A).
Arguments Done {A} o.
Arguments os_Create {A} name k.
Arguments os_OpenFile {A} name flag perm k.
Arguments pem_Encode {A} out b k.
Arguments pem_Encode_nil {A} out k.
Arguments file_Close {A} f k.
Arguments log_Printf {A} msg k.
Arguments fmt_Printf {A} msg k.

(** What follows a call that returned: [rest] takes the value; an exit or
    a panic ends everything. *)
Fixpoint sys_then {A B : Type} (p : sys A) (rest : A -> sys B) : sys B :=
  match p with
  | Done (Returns a) => rest a
  | Done (Exits status msg) => Done (Exits status msg)
  | Done Panics => Done Panics
  | os_Create name k => os_Create name (fun r => sys_then (k r) rest)
  | os_OpenFile name flag perm k =>
      os_OpenFile name flag perm (fun r => sys_then (k r) rest)
  | pem_Encode out b k => pem_Encode out b (fun e => sys_then (k e) rest)
  | pem_Encode_nil out k => pem_Encode_nil out (sys_then k rest)
  | file_Close f k => file_Close f (sys_then k rest)
  | log_Printf msg k => log_Printf msg (sys_then k rest)
  | fmt_Printf msg k => fmt_Printf msg (sys_then k rest)
  end.

(** The certificate block every adapter encodes. *)
Definition certificate_block (derBytes : option bytes) : pem_Block :=
  {| BlockType := "CERTIFICATE"; BlockBytes := slice derBytes |}.

(** [fmt.Errorf("failed to open %s for writing: %s", name, err)]. *)
Definition open_error (name : string) (err : error) : error :=
  "failed to open " ++ name ++ " for writing: " ++ err.

(** [pem.Encode(out, pemBlockForKey(priv))] followed by [rest], with
    [deferred] standing for the deferred calls of the caller.  The block
    is computed first, so that a key that cannot be marshalled exits before
    anything is written, and [os.Exit] runs no deferred call; the nil
    block makes [pem.Encode] panic, and the deferred calls run as the panic
    unwinds. *)
Definition encode_key {A : Type} (priv : PrivateKey (RsaPrivateKey L)
                                          (EcdsaPrivateKey L))
    (out : Handle) (deferred : sys A -> sys A) (rest : sys A) : sys A :=
  match pemBlockForKey L priv with
  | Returns (Some block) => pem_Encode out block (fun _ => rest)
  | Returns None => pem_Encode_nil out (deferred (Done Panics))
  | Exits status msg => Done (Exits status msg)
  | Panics => deferred (Done Panics)
  end.

(** [func GenerateToFile(cp *CertParams, certFile string, keyFile string) error].
    The two [defer]red [Close] calls run, last registered first, wherever
    the function returns after their registration. *)
Definition GenerateToFile (cp : CertParams L) (certFile keyFile : string)
    (rd : Reader L) : sys (option error) * Reader L :=
  let '((priv, derBytes, err), rd') := genCertPair L cp rd in
  (match err with
   | Some e => Done (Returns (Some e))
   | None =>
       os_Create certFile (fun created =>
       match created with
       | Err e => Done (Returns (Some (open_error certFile e)))
       | Ok certOut =>
           pem_Encode certOut (certificate_block derBytes) (fun _ =>
           log_Printf ("written " ++ certFile ++ newline) (
           os_OpenFile keyFile [O_WRONLY; O_CREATE; O_TRUNC] perm_0600
             (fun opened =>
              match opened with
              | Err e =>
                  file_Close certOut
                    (Done (Returns (Some (open_error keyFile e))))
              | Ok keyOut =>
                  encode_key priv keyOut
                    (fun after => file_Close keyOut (file_Close certOut after))
                    (log_Printf ("written " ++ keyFile ++ newline)
                       (file_Close keyOut
                          (file_Close certOut (Done (Returns None)))))
              end)))
       end)
   end, rd').

(** [func GenerateToWriter(cp *CertParams, certWriter io.Writer, keyWriter io.Writer) error]. *)
Definition GenerateToWriter (cp : CertParams L) (certWriter keyWriter : Handle)
    (rd : Reader L) : sys (option error) * Reader L :=
  let '((priv, derBytes, err), rd') := genCertPair L cp rd in
  (match err with
   | Some e => Done (Returns (Some e))
   | None =>
       pem_Encode certWriter (certificate_block derBytes) (fun _ =>
       encode_key priv keyWriter (fun after => after) (Done (Returns None)))
   end, rd').

(** [main] from the statement after [flag.Parse()] on, [f] being the flags
    as parsed: the parameters, [GenerateToFile], and the report of its
    error on standard output. *)
Definition main_with_flags (f : Flags) (now : Time L) (rd : Reader L)
  : sys unit * Reader L :=
  match main_params L f now with
  | Exits status msg => (Done (Exits status msg), rd)
  | Panics => (Done Panics, rd)
  | Returns cp =>
      let '(generate, rd') :=
        GenerateToFile cp (certFile f) (keyFile f) rd in
      (sys_then generate (fun err =>
         match err with
         | Some e =>
             fmt_Printf ("Couldn't generate certs: " ++ e ++ newline)
               (Done (Returns tt))
         | None => Done (Returns tt)
         end), rd')
  end.

(** [func main()].  [flag_Parse] is [flag.Parse()] on the command line
    [args]: it returns the flags, defaults included, or ends the process
    itself, as the flag package does on a malformed command line and on
    [-h]. *)
Definition main (flag_Parse : list string -> outcome Flags)
    (args : list string) (now : Time L) (rd : Reader L)
  : sys unit * Reader L :=
  match flag_Parse args with
  | Returns f => main_with_flags f now rd
  | Exits status msg => (Done (Exits status msg), rd)
  | Panics => (Done Panics, rd)
  end.

(** The calls of a run, with the answers they got. *)
Inductive event : Type :=
| EvCreate (name : string) (r : result Handle)
| EvOpenFile (name : string) (flag : list open_flag) (perm : Z)
    (r : result Handle)
| EvEncode (out : Handle) (b : pem_Block) (err : option error)
| EvEncodeNil (out : Handle)
| EvClose (f : Handle)
| EvLog (msg : string)
| EvPrint (msg : string).

(** [exec p tr o]: [p] can run making the calls [tr] and end in [o]. *)
Inductive exec {A : Type} : sys A -> list event -> outcome A -> Prop :=
| exec_Done (o : outcome A) : exec (Done o) [] o
| exec_Create name k r tr o :
    exec (k r) tr o -> exec (os_Create name k) (EvCreate name r :: tr) o
| exec_OpenFile name flag perm k r tr o :
    exec (k r) tr o ->
    exec (os_OpenFile name flag perm k) (EvOpenFile name flag perm r :: tr) o
| exec_Encode out b k err tr o :
    exec (k err) tr o -> exec (pem_Encode out b k) (EvEncode out b err :: tr) o
| exec_EncodeNil out k tr o :
    exec k tr o -> exec (pem_Encode_nil out k) (EvEncodeNil out :: tr) o
| exec_Close f k tr o :
    exec k tr o -> exec (file_Close f k) (EvClose f :: tr) o
| exec_Log msg k tr o :
    exec k tr o -> exec (log_Printf msg k) (EvLog msg :: tr) o
| exec_Print msg k tr o :
    exec k tr o -> exec (fmt_Printf msg k) (EvPrint msg :: tr) o.

(** The handles a trace obtains, the handles it closes, the blocks it
    encodes and where, all in the order of the calls. *)
Definition opened (tr : list event) : list Handle :=
  flat_map (fun ev => match ev with
                      | EvCreate _ (Ok h) => [h]
                      | EvOpenFile _ _ _ (Ok h) => [h]
                      | _ => []
                      end) tr.

Definition closed (tr : list event) : list Handle :=
  flat_map (fun ev => match ev with
                      | EvClose h => [h]
                      | _ => []
                      end) tr.

Definition encoded (tr : list event) : list (Handle * pem_Block) :=
  flat_map (fun ev => match ev with
                      | EvEncode out b _ => [(out, b)]
                      | _ => []
                      end) tr.

(** The files a trace opens by name, successfully or not, with the flags
    and permission asked for; [os.Create] asks for none of its own. *)
Definition opens_by_OpenFile (tr : list event)
  : list (string * list open_flag * Z) :=
  flat_map (fun ev => match ev with
                      | EvOpenFile name flag perm _ => [(name, flag, perm)]
                      | _ => []
                      end) tr.

End Adapters.

Arguments Done {Handle A} o.
Arguments os_Create {Handle A} name k.
Arguments os_OpenFile {Handle A} name flag perm k.
Arguments pem_Encode {Handle A} out b k.
Arguments pem_Encode_nil {Handle A} out k.
Arguments file_Close {Handle A} f k.
Arguments log_Printf {Handle A} msg k.
Arguments fmt_Printf {Handle A} msg k.
Arguments EvCreate {Handle} name r.
Arguments EvOpenFile {Handle} name flag perm r.
Arguments EvEncode {Handle} out b err.
Arguments EvEncodeNil {Handle} out.
Arguments EvClose {Handle} f.
Arguments EvLog {Handle} msg.
Arguments EvPrint {Handle} msg.
Arguments exec {Handle A} _ _ _.
Arguments opened {Handle} tr.
Arguments closed {Handle} tr.
Arguments encoded {Handle} tr.
Arguments opens_by_OpenFile {Handle} tr.

Create HintDb runs.
#[export] Hint Constructors exec : runs.

(** The calls that follow the first [Close] of a trace. *)
Fixpoint after_first_close {Handle : Type} (tr : list (event Handle))
  : list (event Handle) :=
  match tr with
  | [] => []
  | EvClose _ :: rest => rest
  | _ :: rest => after_first_close rest
  end.

(** The key block of a call that got a key, if there is one. *)
Definition key_block (L : GoLib)
    (priv : PrivateKey (RsaPrivateKey L) (EcdsaPrivateKey L))
  : option pem_Block :=
  match pemBlockForKey L priv with
  | Returns b => b
  | _ => None
  end.

(** The trace of a call of [GenerateToFile] in which both files open:
    [e1] and [e2] are what the two calls of [pem.Encode] answer. *)
Definition both_files_written {Handle : Type} (certFile keyFile : string)
    (certOut keyOut : Handle) (cert key : pem_Block) (e1 e2 : option error)
  : list (event Handle) :=
  [EvCreate certFile (Ok certOut);
   EvEncode certOut cert e1;
   EvLog ("written " ++ certFile ++ newline);
   EvOpenFile keyFile [O_WRONLY; O_CREATE; O_TRUNC] perm_0600 (Ok keyOut);
   EvEncode keyOut key e2;
   EvLog ("written " ++ keyFile ++ newline);
   EvClose keyOut;
   EvClose certOut].

(** The start of a call in which both files open. *)
Definition files_opened {Handle : Type} (certFile keyFile : string)
    (certOut keyOut : Handle) (cert : pem_Block) (e1 : option error)
  : list (event Handle) :=
  [EvCreate certFile (Ok certOut);
   EvEncode certOut cert e1;
   EvLog ("written " ++ certFile ++ newline);
   EvOpenFile keyFile [O_WRONLY; O_CREATE; O_TRUNC] perm_0600 (Ok keyOut)].

(** The trace of a call in which the key file does not open. *)
Definition key_file_refused {Handle : Type} (certFile keyFile : string)
    (certOut : Handle) (cert : pem_Block) (e1 : option error) (e : error)
  : list (event Handle) :=
  [EvCreate certFile (Ok certOut);
   EvEncode certOut cert e1;
   EvLog ("written " ++ certFile ++ newline);
   EvOpenFile keyFile [O_WRONLY; O_CREATE; O_TRUNC] perm_0600 (Err e);
   EvClose certOut].

(** ** The server *)

Section Server.

Context (L : GoLib).

(** [http.Handler], [tls.Certificate] and [tls.X509KeyPair]. *)
Context (Handler tls_Certificate : Type).
Context (tls_X509KeyPair :
           option bytes -> option bytes -> result tls_Certificate).

(** Where [ListenAndServeTLS] gets to: the call of
    [srv.ListenAndServeTLS("", "")] on the server it has set up, whose
    result it returns, or an end before that. *)
Inductive served : Type :=
| Listening (addr : string) (handler : Handler)
    (Certificates : list tls_Certificate)
| NotListening (o : outcome error).

(** [func ListenAndServeTLS(addr string, handler http.Handler, p *certgen.CertParams) error];
    the variant without [p] is the case of the nil [p]. *)
Definition ListenAndServeTLS (addr : string) (handler : Handler)
    (p : option (CertParams L)) (now : Time L) (rd : Reader L)
  : served * Reader L :=
  let p :=
    match p with
    | None => NewDefaultParams L now
    | Some p => p
    end in
  match GenerateToMemory L p rd with
  | (Returns (_, _, Some err), rd') => (NotListening (Returns err), rd')
  | (Returns (cert, key, None), rd') =>
      match tls_X509KeyPair cert key with
      | Err err => (NotListening (Returns err), rd')
      | Ok certificate => (Listening addr handler [certificate], rd')
      end
  | (Exits status msg, rd') => (NotListening (Exits status msg), rd')
  | (Panics, rd') => (NotListening Panics, rd')
  end.

End Server.

Arguments Listening {Handler tls_Certificate} addr handler Certificates.
Arguments NotListening {Handler tls_Certificate} o.

(** ** Sample runs on the executable instance *)

(** ECDSA on P-256 for two hosts, with enough entropy. *)
Definition sample_params : CertParams Sim.lib :=
  Sim.params "localhost,127.0.0.1" 0 time_Hour false false 0 P256.

Definition sample_entropy : Sim.entropy := Sim.counting 100.

Definition sample_cert_block : pem_Block :=
  certificate_block (snd (fst (fst (genCertPair Sim.lib sample_params
                                      sample_entropy)))).

Definition sample_key_block : pem_Block :=
  {| BlockType := "EC PRIVATE KEY"; BlockBytes := firstn 32 sample_entropy |}.

(** Both files open (as handles 3 and 4) and both writes fail. *)
Definition sample_run_full_disk : list (event nat) :=
  both_files_written "cert.pem" "key.pem" 3%nat 4%nat sample_cert_block
    sample_key_block (Some "no space left on device")
    (Some "no space left on device").

(** The certificate file opens and the key file does not. *)
Definition sample_run_key_refused : list (event nat) :=
  key_file_refused "cert.pem" "/key.pem" 3%nat sample_cert_block None
    "open /key.pem: permission denied".

(** The runs of [main] by what it calls: the end [flag.Parse] makes, the
    exit of [main] on the flags, or a run of [GenerateToFile] followed by
    the report of its error. *)
Definition main_run_of (L : GoLib) (Handle : Type)
    (flag_Parse : list string -> outcome Flags) (args : list string)
    (now : Time L) (rd : Reader L) (tr : list (event Handle))
    (o : outcome unit) : Prop :=
  match flag_Parse args with
  | Exits status msg => tr = [] /\ o = Exits status msg
  | Panics => tr = [] /\ o = Panics
  | Returns f =>
      match main_params L f now with
      | Exits status msg => status = 1 /\ tr = [] /\ o = Exits 1 msg
      | Panics => False
      | Returns cp =>
          exists (tr1 : list (event Handle)) (o1 : outcome (option error)),
            exec (fst (GenerateToFile L Handle cp (certFile f) (keyFile f)
                         rd)) tr1 o1 /\
            (forall msg : string, ~ In (EvPrint msg) tr1) /\
            match o1 with
            | Returns (Some e) =>
                tr = (tr1
                      ++ [EvPrint ("Couldn't generate certs: " ++ e
                                   ++ newline)])%list /\
                o = Returns tt
            | Returns None => tr = tr1 /\ o = Returns tt
            | Exits status msg =>
                status = 2 /\
                (exists (k : EcdsaPrivateKey L) (err : error),
                   x509_MarshalECPrivateKey L k = Err err /\
                   msg = "Unable to marshal ECDSA private key: " ++ err) /\
                tr = tr1 /\ o = Exits 2 msg
            | Panics => False
            end
      end
  end.

(** ** The parameters a call does not look at *)

Definition with_EcdsaCurve (L : GoLib) (cp : CertParams L) (c : ECDSACurve)
  : CertParams L :=
  Build_CertParams L (Hosts cp) (ValidFrom cp) (ValidFor cp) (IsCA cp)
    (Rsa cp) (RsaBits cp) c.

Definition with_RsaBits (L : GoLib) (cp : CertParams L) (bits : Z)
  : CertParams L :=
  Build_CertParams L (Hosts cp) (ValidFrom cp) (ValidFor cp) (IsCA cp)
    (Rsa cp) bits (EcdsaCurve cp).

Definition with_rsaBits (f : Flags) (bits : Z) : Flags :=
  Build_Flags (host f) (validFrom f) (validFor f) (isCA f) bits
    (ecdsaCurve f) (certFile f) (keyFile f).

(** ** The step an error message names *)

Inductive phase : Type :=
| KeyGeneration
| SerialNumberDraw
| Signing.

(** The step a message of [genCertPair] starts with the words of. *)
Definition error_phase (e : error) : option phase :=
  if String.prefix "failed to generate private key: " e then
    Some KeyGeneration
  else if String.prefix "failed to generate serial number: " e then
    Some SerialNumberDraw
  else if String.prefix "Failed to create certificate: " e then
    Some Signing
  else None.

(** [H] says that a value is in none of the listed ones and [E] that it is
    one of them. *)
Ltac listed H E := exfalso; apply H; rewrite E; simpl; tauto.

(** ** Splitting *)

Lemma split_from_length (s cur : string) :
  List.length (split_from ","%char s cur) = S (commas s).
Proof.
  revert cur.
  induction s as [|c rest IH]; intros cur; simpl.
  - reflexivity.
  - destruct (Ascii.eqb c ","%char); simpl; rewrite IH; reflexivity.
Qed.

Lemma strings_Split_comma_length (s : string) :
  List.length (strings_Split_comma s) = S (commas s).
Proof. apply split_from_length. Qed.

(** ** The loop over the hosts *)

Section HostLoop.

Context (L : GoLib).

(** The loop touches the two SAN lists and nothing else. *)
Lemma addHost_frame (t : Certificate (Time L)) (h : string) :
  SerialNumber (addHost L t h) = SerialNumber t /\
  Subject (addHost L t h) = Subject t /\
  NotBefore (addHost L t h) = NotBefore t /\
  NotAfter (addHost L t h) = NotAfter t /\
  KeyUsageOf (addHost L t h) = KeyUsageOf t /\
  ExtKeyUsageOf (addHost L t h) = ExtKeyUsageOf t /\
  BasicConstraintsValid (addHost L t h) = BasicConstraintsValid t /\
  IsCAOf (addHost L t h) = IsCAOf t.
Proof.
  unfold addHost.
  destruct (net_ParseIP L h); simpl; repeat split; reflexivity.
Qed.

Lemma hosts_frame (hosts : list string) (t : Certificate (Time L)) :
  SerialNumber (fold_left (addHost L) hosts t) = SerialNumber t /\
  Subject (fold_left (addHost L) hosts t) = Subject t /\
  NotBefore (fold_left (addHost L) hosts t) = NotBefore t /\
  NotAfter (fold_left (addHost L) hosts t) = NotAfter t /\
  KeyUsageOf (fold_left (addHost L) hosts t) = KeyUsageOf t /\
  ExtKeyUsageOf (fold_left (addHost L) hosts t) = ExtKeyUsageOf t /\
  BasicConstraintsValid (fold_left (addHost L) hosts t)
    = BasicConstraintsValid t /\
  IsCAOf (fold_left (addHost L) hosts t) = IsCAOf t.
Proof.
  revert t.
  induction hosts as [|h hosts IH]; intros t; simpl.
  - repeat split; reflexivity.
  - destruct (IH (addHost L t h)) as (E1 & E2 & E3 & E4 & E5 & E6 & E7 & E8).
    destruct (addHost_frame t h) as (F1 & F2 & F3 & F4 & F5 & F6 & F7 & F8).
    rewrite E1, E2, E3, E4, E5, E6, E7, E8.
    repeat split; assumption.
Qed.

(** Each entry is appended to one of the two lists, after what is there. *)
Lemma hosts_sans (hosts : list string) (t : Certificate (Time L)) :
  IPAddresses (fold_left (addHost L) hosts t)
    = (IPAddresses t ++ ip_sans L hosts)%list /\
  DNSNames (fold_left (addHost L) hosts t)
    = (DNSNames t ++ dns_sans L hosts)%list.
Proof.
  revert t.
  induction hosts as [|h hosts IH]; intros t; simpl.
  - rewrite !app_nil_r. split; reflexivity.
  - destruct (IH (addHost L t h)) as [Eip Edns].
    rewrite Eip, Edns. unfold addHost.
    destruct (net_ParseIP L h) as [ip|]; simpl;
      rewrite <- ?app_assoc; simpl; rewrite ?app_nil_r; split; reflexivity.
Qed.

(** Every entry lands in exactly one list. *)
Lemma sans_partition (hosts : list string) :
  (List.length (ip_sans L hosts) + List.length (dns_sans L hosts)
   = List.length hosts)%nat.
Proof.
  induction hosts as [|h hosts IH]; simpl.
  - reflexivity.
  - destruct (net_ParseIP L h); simpl; rewrite ?length_app; simpl; lia.
Qed.

(** The CA branch leaves the SAN lists and the validity alone. *)
Lemma newTemplate_sans (cp : CertParams L) (n : Z) :
  IPAddresses (newTemplate L cp n)
    = ip_sans L (strings_Split_comma (Hosts cp)) /\
  DNSNames (newTemplate L cp n)
    = dns_sans L (strings_Split_comma (Hosts cp)).
Proof.
  unfold newTemplate.
  match goal with
  | |- context [fold_left _ ?hs ?t0] =>
      destruct (hosts_sans hs t0) as [Eip Edns]
  end.
  simpl in Eip, Edns.
  destruct (IsCA cp); simpl; rewrite Eip, Edns; split; reflexivity.
Qed.

(** What reaches [x509.CreateCertificate] is [newTemplate] at the serial
    number drawn after the key; a call that does not get there failed in
    one of these two steps. *)
Lemma genCertPair_template_cases (cp : CertParams L) (rd : Reader L) :
  match genCertPair_template L cp rd with
  | (Ok (priv, t), rd2) =>
      exists (rd1 : Reader L) (n : Z),
        generateKey L cp rd = ((priv, None), rd1) /\
        rand_Int L rd1 (Z.shiftl 1 128) = (Ok n, rd2) /\
        t = newTemplate L cp n
  | (Err e, _) => before_template e
  end.
Proof.
  unfold genCertPair_template.
  destruct (generateKey L cp rd) as [[priv [e|]] rd1].
  - exists e. left. reflexivity.
  - destruct (rand_Int L rd1 (Z.shiftl 1 128)) as [[n|e] rd2] eqn:E.
    + exists rd1, n. repeat split. assumption.
    + exists e. right. reflexivity.
Qed.

End HostLoop.

(** The serial number of the template is the number it is built around. *)
Lemma newTemplate_SerialNumber (L : GoLib) (cp : CertParams L) (n : Z) :
  SerialNumber (newTemplate L cp n) = n.
Proof.
  unfold newTemplate.
  match goal with
  | |- context [fold_left _ ?hs ?t0] =>
      destruct (hosts_frame L hs t0) as (E1 & _)
  end.
  simpl in E1.
  destruct (IsCA cp); simpl; rewrite E1; reflexivity.
Qed.

(** What holds of the template around every number holds of the template
    of the call, which is built whenever its two draws succeed. *)
Lemma always_in_template_intro (L : GoLib) (cp : CertParams L)
    (rd : Reader L) (P : Certificate (Time L) -> Prop) :
  (forall n : Z, P (newTemplate L cp n)) ->
  always_in_template L cp rd P.
Proof.
  intros HP. split.
  - pose proof (genCertPair_template_cases L cp rd) as H.
    destruct (genCertPair_template L cp rd) as [[[priv t]|e] rd2];
      [|exact H].
    destruct H as (rd1 & n & _ & _ & ->). apply HP.
  - unfold genCertPair_template.
    destruct (generateKey L cp rd) as [[priv [e|]] rd1]; [exact I|].
    change serial_limit with (Z.shiftl 1 128).
    destruct (rand_Int L rd1 (Z.shiftl 1 128)) as [[n|e] rd2]; [|exact I].
    exists (newTemplate L cp n).
    split; [reflexivity|]. split; [apply newTemplate_SerialNumber|apply HP].
Qed.

(** The host string plays no part in the key or the serial number. *)
Lemma template_error_Hosts (L : GoLib) (cp : CertParams L) (rd : Reader L)
    (hosts : string) :
  template_error L (with_Hosts L cp hosts) rd = template_error L cp rd.
Proof.
  unfold template_error, genCertPair_template.
  change (generateKey L (with_Hosts L cp hosts) rd)
    with (generateKey L cp rd).
  destruct (generateKey L cp rd) as [[priv [e|]] rd1]; [reflexivity|].
  destruct (rand_Int L rd1 (Z.shiftl 1 128)) as [[n|e] rd2]; reflexivity.
Qed.

Lemma count_occ_filter_kept (f : string -> bool) (x : string)
    (l : list string) :
  f x = true ->
  count_occ string_dec (filter f l) x = count_occ string_dec l x.
Proof.
  intros Hx.
  induction l as [|y l IH]; simpl.
  - reflexivity.
  - destruct (string_dec y x) as [->|Hne].
    + rewrite Hx. simpl. destruct (string_dec x x); congruence.
    + destruct (f y); simpl.
      * destruct (string_dec y x); congruence.
      * assumption.
Qed.

(** ** Curve names *)

(** C9. Round trip of the curve names: on each of the four curve values
    [ECDSACurveFromString] undoes [String] and reports no error; on any
    string that is not one of the four names it returns [P224] with an
    error; [String] of any other value is the empty string. *)
Theorem curve_name_round_trip (e e' : ECDSACurve) (s : string) :
  In e supported_curves ->
  ~ In s curve_names ->
  ~ In e' supported_curves ->
  ECDSACurveFromString (ECDSACurve_String e) = (e, None) /\
  (exists msg : error, ECDSACurveFromString s = (P224, Some msg)) /\
  ECDSACurve_String e' = "".
Proof.
  intros He Hs He'.
  split; [|split].
  - simpl in He.
    destruct He as [<-|[<-|[<-|[<-|[]]]]]; reflexivity.
  - exists "Invalid or Not supported ECDSA Curve".
    unfold ECDSACurveFromString.
    simpl in Hs.
    destruct (String.eqb_spec s "P224") as [->|_]; [tauto|].
    destruct (String.eqb_spec s "P256") as [->|_]; [tauto|].
    destruct (String.eqb_spec s "P384") as [->|_]; [tauto|].
    destruct (String.eqb_spec s "P521") as [->|_]; [tauto|].
    reflexivity.
  - unfold ECDSACurve_String.
    simpl in He'.
    destruct (Z.eqb_spec e' P224) as [->|_]; [tauto|].
    destruct (Z.eqb_spec e' P256) as [->|_]; [tauto|].
    destruct (Z.eqb_spec e' P384) as [->|_]; [tauto|].
    destruct (Z.eqb_spec e' P521) as [->|_]; [tauto|].
    reflexivity.
Qed.

Lemma curve_name_round_trip_witness :
  ECDSACurveFromString (ECDSACurve_String P384) = (P384, None) /\
  (exists msg : error, ECDSACurveFromString "p256" = (P224, Some msg)) /\
  ECDSACurve_String 4 = "".
Proof.
  apply (curve_name_round_trip P384 4 "p256").
  - simpl. tauto.
  - simpl. intros [H|[H|[H|[H|[]]]]]; discriminate H.
  - simpl. intros [H|[H|[H|[H|[]]]]]; discriminate H.
Defined.

(** ** Subject alternative names *)

(** C1. The host string is split on commas and every entry, in input
    order, goes to the IP SANs exactly when it parses as an IP literal and
    to the DNS names otherwise.  For ["example.com,10.0.0.1,::1"] the
    template holds the DNS name [example.com] and the addresses 10.0.0.1
    and ::1 (in the 16-byte form [net.ParseIP] gives them), in that
    order. *)
Theorem hosts_classified_in_order :
  (forall (L : GoLib) (cp : CertParams L) (rd : Reader L),
     match genCertPair_template L cp rd with
     | (Ok (_, t), _) =>
         let hosts := strings_Split_comma (Hosts cp) in
         IPAddresses t = ip_sans L hosts /\
         DNSNames t = dns_sans L hosts /\
         forall h : string,
           In h hosts ->
           match net_ParseIP L h with
           | Some ip => In ip (IPAddresses t) /\ ~ In h (DNSNames t)
           | None => In h (DNSNames t)
           end
     | (Err e, _) => before_template e
     end) /\
  (forall (from : Z) (len : Duration) (ca rsa : bool) (bits : Z)
          (curve : ECDSACurve) (rd : Sim.entropy),
     match genCertPair_template Sim.lib
             (Sim.params "example.com,10.0.0.1,::1" from len ca rsa bits curve)
             rd with
     | (Ok (_, t), _) =>
         DNSNames t = ["example.com"] /\
         IPAddresses t =
           [[0; 0; 0; 0; 0; 0; 0; 0; 0; 0; 255; 255; 10; 0; 0; 1];
            [0; 0; 0; 0; 0; 0; 0; 0; 0; 0; 0; 0; 0; 0; 0; 1]]
     | (Err e, _) => before_template e
     end) /\
  match genCertPair_template Sim.lib
          (Sim.params "example.com,10.0.0.1,::1" 0 time_Hour false true 2048 P256)
          (Sim.counting 300) with
  | (Ok (_, t), _) =>
      DNSNames t = ["example.com"] /\ List.length (IPAddresses t) = 2%nat
  | (Err _, _) => False
  end.
Proof.
  split; [|split].
  - intros L cp rd.
    pose proof (genCertPair_template_cases L cp rd) as H.
    destruct (genCertPair_template L cp rd) as [[[priv t]|e] rd2]; [|exact H].
    destruct H as (rd1 & n & _ & _ & ->).
    destruct (newTemplate_sans L cp n) as [Eip Edns].
    cbv zeta. rewrite Eip, Edns.
    split; [reflexivity|]. split; [reflexivity|].
    intros h Hh.
    destruct (net_ParseIP L h) as [ip|] eqn:Ep.
    + split.
      * unfold ip_sans. apply in_flat_map. exists h.
        split; [assumption|]. rewrite Ep. left. reflexivity.
      * unfold dns_sans. intros Hin. apply filter_In in Hin.
        destruct Hin as [_ Hf]. rewrite Ep in Hf. discriminate Hf.
    + unfold dns_sans. apply filter_In. split; [assumption|].
      rewrite Ep. reflexivity.
  - intros from len ca rsa bits curve rd.
    pose proof (genCertPair_template_cases Sim.lib
      (Sim.params "example.com,10.0.0.1,::1" from len ca rsa bits curve) rd)
      as H.
    destruct (genCertPair_template Sim.lib _ rd) as [[[priv t]|e] rd2];
      [|exact H].
    destruct H as (rd1 & n & _ & _ & ->).
    destruct (newTemplate_sans Sim.lib
      (Sim.params "example.com,10.0.0.1,::1" from len ca rsa bits curve) n)
      as [Eip Edns].
    rewrite Eip, Edns. split; reflexivity.
  - vm_compute. split; reflexivity.
Qed.

(** C10. No entry is dropped or merged: in the template of every call the
    two SAN lists together have as many entries as the host string has
    comma-separated segments, one more than it has commas and so at least
    one.  Where the empty string is no IP literal, every empty segment (an
    empty host string, stray commas) is an empty DNS name of the template.
    No host string is rejected: the template is built whenever the key and
    the serial number are drawn, and whether they are does not depend on
    the host string.  On the executable instance the empty host string
    gives the one DNS name [""] and ["a,,b,"] the names [a], [""], [b],
    [""]. *)
Theorem hosts_never_dropped :
  (forall (L : GoLib) (cp : CertParams L) (rd : Reader L),
     always_in_template L cp rd
       (fun t =>
          let hosts := strings_Split_comma (Hosts cp) in
          (List.length (IPAddresses t) + List.length (DNSNames t)
           = List.length hosts)%nat /\
          List.length hosts = S (commas (Hosts cp)) /\
          (1 <= List.length hosts)%nat)) /\
  (forall (L : GoLib) (cp : CertParams L) (rd : Reader L),
     net_ParseIP L "" = None ->
     always_in_template L cp rd
       (fun t =>
          count_occ string_dec (DNSNames t) ""
          = count_occ string_dec (strings_Split_comma (Hosts cp)) "" /\
          (Hosts cp = "" -> DNSNames t = [""] /\ IPAddresses t = []))) /\
  (forall (L : GoLib) (cp : CertParams L) (rd : Reader L) (hosts : string),
     template_error L (with_Hosts L cp hosts) rd = template_error L cp rd) /\
  match genCertPair_template Sim.lib
          (Sim.params "" 0 time_Hour false true 2048 P256)
          (Sim.counting 300) with
  | (Ok (_, t), _) => DNSNames t = [""] /\ IPAddresses t = []
  | (Err _, _) => False
  end /\
  match genCertPair_template Sim.lib
          (Sim.params "a,,b," 0 time_Hour false true 2048 P256)
          (Sim.counting 300) with
  | (Ok (_, t), _) => DNSNames t = ["a"; ""; "b"; ""] /\ IPAddresses t = []
  | (Err _, _) => False
  end.
Proof.
  split; [|split; [|split; [|split]]].
  - intros L cp rd. apply always_in_template_intro. intros n.
    destruct (newTemplate_sans L cp n) as [Eip Edns].
    cbv zeta. rewrite Eip, Edns, sans_partition, strings_Split_comma_length.
    repeat split. lia.
  - intros L cp rd Hempty. apply always_in_template_intro. intros n.
    destruct (newTemplate_sans L cp n) as [Eip Edns].
    rewrite Eip, Edns. split.
    + unfold dns_sans. apply count_occ_filter_kept.
      rewrite Hempty. reflexivity.
    + intros ->. simpl. rewrite Hempty. split; reflexivity.
  - intros L cp rd hosts. apply template_error_Hosts.
  - vm_compute. split; reflexivity.
  - vm_compute. split; reflexivity.
Qed.

Lemma hosts_never_dropped_witness :
  net_ParseIP Sim.lib "" = None /\
  always_in_template Sim.lib
    (Sim.params "a,,b," 0 time_Hour false true 2048 P256) (Sim.counting 300)
    (fun t =>
       count_occ string_dec (DNSNames t) ""
       = count_occ string_dec
           (strings_Split_comma
              (Hosts (Sim.params "a,,b," 0 time_Hour false true 2048 P256)))
           "" /\
       (Hosts (Sim.params "a,,b," 0 time_Hour false true 2048 P256) = "" ->
        DNSNames t = [""] /\ IPAddresses t = [])).
Proof.
  split.
  - reflexivity.
  - apply (proj1 (proj2 hosts_never_dropped) Sim.lib
             (Sim.params "a,,b," 0 time_Hour false true 2048 P256)
             (Sim.counting 300)).
    reflexivity.
Defined.

(** The empty host string and a string with stray commas, run through the
    executable instance. *)
Example stray_commas_run :
  DNSNames (newTemplate Sim.lib
              (Sim.params "" 0 time_Hour false true 2048 P256) 7) = [""] /\
  DNSNames (newTemplate Sim.lib
              (Sim.params "a,,b," 0 time_Hour false true 2048 P256) 7)
  = ["a"; ""; "b"; ""] /\
  IPAddresses (newTemplate Sim.lib
                 (Sim.params ",10.0.0.1," 0 time_Hour false true 2048 P256) 7)
  = [[0; 0; 0; 0; 0; 0; 0; 0; 0; 0; 255; 255; 10; 0; 0; 1]].
Proof. vm_compute. repeat split. Qed.

(** The default parameters, as the test of the package runs them: a
    certificate and a key come back, and no error. *)
Example default_params_run :
  match GenerateToMemory Sim.lib (NewDefaultParams Sim.lib 0)
          (Sim.counting 300) with
  | (Returns (Some _, Some _, None), _) => True
  | _ => False
  end.
Proof. vm_compute. exact I. Qed.

(** ** The fixed fields of the template *)

Lemma newTemplate_fields (L : GoLib) (cp : CertParams L) (n : Z) :
  SerialNumber (newTemplate L cp n) = n /\
  NotBefore (newTemplate L cp n) = ValidFrom cp /\
  NotAfter (newTemplate L cp n) = notAfter L cp /\
  KeyUsageOf (newTemplate L cp n)
    = (if IsCA cp
       then Z.lor (Z.lor KeyUsageKeyEncipherment KeyUsageDigitalSignature)
              KeyUsageCertSign
       else Z.lor KeyUsageKeyEncipherment KeyUsageDigitalSignature) /\
  BasicConstraintsValid (newTemplate L cp n) = true /\
  IsCAOf (newTemplate L cp n) = IsCA cp.
Proof.
  unfold newTemplate.
  match goal with
  | |- context [fold_left _ ?hs ?t0] =>
      destruct (hosts_frame L hs t0) as (E1 & _ & E3 & E4 & E5 & _ & E7 & E8)
  end.
  simpl in E1, E3, E4, E5, E7, E8.
  destruct (IsCA cp); simpl; rewrite ?E1, ?E3, ?E4, ?E5, ?E7, ?E8;
    repeat split; reflexivity.
Qed.

(** The validity duration plays no part in the key or the serial number. *)
Lemma template_error_ValidFor (L : GoLib) (cp : CertParams L) (rd : Reader L)
    (d : Duration) :
  template_error L (with_ValidFor L cp d) rd = template_error L cp rd.
Proof.
  unfold template_error, genCertPair_template.
  change (generateKey L (with_ValidFor L cp d) rd) with (generateKey L cp rd).
  destruct (generateKey L cp rd) as [[priv [e|]] rd1]; [reflexivity|].
  destruct (rand_Int L rd1 (Z.shiftl 1 128)) as [[n|e] rd2]; reflexivity.
Qed.

(** C2. The template is valid from [ValidFrom] and until
    [ValidFrom.Add(ValidFor)], whatever the duration: nothing is clamped, and
    whether the call gets as far as the template does not depend on the
    duration, so that a zero or negative one is accepted like any other.
    On the executable instance, where time is a count of nanoseconds, five
    nanoseconds of start and a duration of minus seven give a template
    that ends at minus two. *)
Theorem validity_window_exact :
  (forall (L : GoLib) (cp : CertParams L) (rd : Reader L),
     match genCertPair_template L cp rd with
     | (Ok (_, t), _) =>
         NotBefore t = ValidFrom cp /\
         NotAfter t = time_Add L (ValidFrom cp) (ValidFor cp)
     | (Err e, _) => before_template e
     end /\
     forall d : Duration,
       template_error L (with_ValidFor L cp d) rd = template_error L cp rd) /\
  match genCertPair_template Sim.lib
          (Sim.params "localhost" 5 (-7) false true 2048 P256)
          (Sim.counting 300) with
  | (Ok (_, t), _) => NotBefore t = 5 /\ NotAfter t = -2
  | (Err _, _) => False
  end.
Proof.
  split.
  - intros L cp rd. split.
    + pose proof (genCertPair_template_cases L cp rd) as H.
      destruct (genCertPair_template L cp rd) as [[[priv t]|e] rd2];
        [|exact H].
      destruct H as (rd1 & n & _ & _ & ->).
      destruct (newTemplate_fields L cp n) as (_ & E3 & E4 & _).
      rewrite E3, E4. split; reflexivity.
    + intros d. apply template_error_ValidFor.
  - vm_compute. split; reflexivity.
Qed.

(** C3. The key usage of the template always has the key-encipherment and
    digital-signature bits (bits 2 and 0); the certificate-signing bit (bit
    5) and the CA flag are set exactly when [IsCA] is; the basic
    constraints are always marked valid.  This holds of the template of
    every call, which is built whenever the key and the serial number are
    drawn; on the executable instance the key usage of the template is 37
    for a CA and 5 otherwise. *)
Theorem key_usage_follows_IsCA :
  (forall (L : GoLib) (cp : CertParams L) (rd : Reader L),
     always_in_template L cp rd
       (fun t =>
          has_usage (KeyUsageOf t) KeyUsageKeyEncipherment = true /\
          has_usage (KeyUsageOf t) KeyUsageDigitalSignature = true /\
          has_usage (KeyUsageOf t) KeyUsageCertSign = IsCA cp /\
          Z.testbit (KeyUsageOf t) 2 = true /\
          Z.testbit (KeyUsageOf t) 0 = true /\
          Z.testbit (KeyUsageOf t) 5 = IsCA cp /\
          IsCAOf t = IsCA cp /\
          BasicConstraintsValid t = true)) /\
  match genCertPair_template Sim.lib
          (Sim.params "localhost" 0 time_Hour true true 2048 P256)
          (Sim.counting 300) with
  | (Ok (_, t), _) =>
      KeyUsageOf t = 37 /\ IsCAOf t = true /\ BasicConstraintsValid t = true
  | (Err _, _) => False
  end /\
  match genCertPair_template Sim.lib
          (Sim.params "localhost" 0 time_Hour false true 2048 P256)
          (Sim.counting 300) with
  | (Ok (_, t), _) =>
      KeyUsageOf t = 5 /\ IsCAOf t = false /\ BasicConstraintsValid t = true
  | (Err _, _) => False
  end.
Proof.
  split; [|split].
  - intros L cp rd. apply always_in_template_intro. intros n.
    destruct (newTemplate_fields L cp n) as (_ & _ & _ & E5 & E7 & E8).
    rewrite E5, E7, E8.
    destruct (IsCA cp); repeat split; reflexivity.
  - vm_compute. repeat split; reflexivity.
  - vm_compute. repeat split; reflexivity.
Qed.

(** ** The serial number *)

Lemma SetBytes_from_nonneg (b : bytes) (acc : Z) :
  0 <= acc -> 0 <= fold_left (fun a x => a * 256 + x mod 256) b acc.
Proof.
  revert acc.
  induction b as [|x b IH]; intros acc Hacc; simpl.
  - assumption.
  - apply IH.
    pose proof (Z.mod_pos_bound x 256 ltac:(lia)). lia.
Qed.

Lemma Int_loop_in_range (tries : nat) (rd rd' : Sim.entropy) (max : Z)
    (k : nat) (b n : Z) :
  Sim.Int_loop tries rd max k b = (Ok n, rd') -> 0 <= n < max.
Proof.
  revert rd.
  induction tries as [|tries IH]; intros rd H; simpl in H.
  - discriminate H.
  - destruct (Sim.ReadFull k rd) as [[bs|e] rd1]; [|discriminate H].
    match type of H with
    | (if ?n0 <? max then _ else _) = _ =>
        destruct (Z.ltb_spec n0 max) as [Hlt|Hge]
    end.
    + injection H as <- _. split; [|assumption].
      apply SetBytes_from_nonneg. lia.
    + apply (IH rd1). assumption.
Qed.

(** The executable [rand.Int] keeps the contract. *)
Lemma Sim_Int_in_range : rand_Int_in_range Sim.lib.
Proof.
  intros rd rd' max n Hmax H.
  simpl in H. unfold Sim.Int in H.
  destruct (Z.leb_spec max 0) as [Hle|_]; [lia|].
  destruct (Sim.BitLen (max - 1) =? 0).
  - injection H as <- _. lia.
  - apply Int_loop_in_range in H. assumption.
Qed.

Lemma SetBytes_from_bound (b : bytes) (acc : Z) :
  0 <= acc ->
  fold_left (fun a x => a * 256 + x mod 256) b acc
  < (acc + 1) * 256 ^ Z.of_nat (List.length b).
Proof.
  revert acc.
  induction b as [|x b IH]; intros acc Hacc.
  - simpl. lia.
  - cbn [fold_left List.length].
    pose proof (Z.mod_pos_bound x 256 ltac:(lia)) as Hx.
    specialize (IH (acc * 256 + x mod 256) ltac:(lia)).
    rewrite Nat2Z.inj_succ, Z.pow_succ_r by lia.
    assert (Hpow : 0 < 256 ^ Z.of_nat (List.length b))
      by (apply Z.pow_pos_nonneg; lia).
    nia.
Qed.

(** At the bound [2^128] the executable [rand.Int] never rejects a
    candidate: the number it returns is the big-endian value of the next
    sixteen bytes of entropy, all of whose bits are used. *)
Lemma Sim_Int_sixteen_bytes (rd : Sim.entropy) :
  (16 <= List.length rd)%nat ->
  Sim.Int rd serial_limit
  = (Ok (Sim.SetBytes (firstn 16 rd)), skipn 16 rd).
Proof.
  intros Hlen.
  unfold Sim.Int.
  change (serial_limit <=? 0) with false. cbv iota.
  change (Sim.BitLen (serial_limit - 1)) with 128.
  change (128 =? 0) with false. cbv iota.
  change (Z.to_nat ((128 + 7) / 8)) with 16%nat.
  change (if 128 mod 8 =? 0 then 8 else 128 mod 8) with 8.
  cbn [Sim.Int_loop]. unfold Sim.ReadFull.
  replace (Nat.ltb (List.length rd) 16) with false
    by (symmetry; apply Nat.ltb_ge; assumption).
  match goal with
  | |- context [Sim.SetBytes ?masked <? _] =>
      assert (Hmask : Sim.SetBytes masked = Sim.SetBytes (firstn 16 rd))
  end.
  { destruct (firstn 16 rd) as [|b0 tl]; [reflexivity|].
    unfold Sim.SetBytes. cbn [fold_left].
    change (Z.shiftl 1 8 - 1) with (Z.ones 8).
    rewrite Z.land_ones by lia.
    change (2 ^ 8) with 256.
    rewrite Z.mod_mod by lia. reflexivity. }
  rewrite Hmask.
  assert (Hlt : Sim.SetBytes (firstn 16 rd) < serial_limit).
  { pose proof (SetBytes_from_bound (firstn 16 rd) 0 ltac:(lia)) as Hb.
    rewrite length_firstn, Nat.min_l in Hb by assumption.
    exact Hb. }
  apply Z.ltb_lt in Hlt. rewrite Hlt. reflexivity.
Qed.

(** The serial number of the template is the value [rand.Int] returns
    for the bound [2^128] on the entropy left by the key generation of this
    very call: what the library draws is what the certificate carries.
    Under the contract of [rand.Int] it is at least zero and below
    [2^128].  How the number is distributed is the library's doing: the
    random source is passed along here as a state, of which no
    probability is taken. *)
Theorem serial_number_below_2_128 (L : GoLib) (cp : CertParams L)
    (rd : Reader L) :
  rand_Int_in_range L ->
  match genCertPair_template L cp rd with
  | (Ok (_, t), rd2) =>
      0 <= SerialNumber t < serial_limit /\
      rand_Int L (snd (generateKey L cp rd)) serial_limit
        = (Ok (SerialNumber t), rd2)
  | (Err e, _) => before_template e
  end.
Proof.
  intros Hrange.
  pose proof (genCertPair_template_cases L cp rd) as H.
  destruct (genCertPair_template L cp rd) as [[[priv t]|e] rd2]; [|exact H].
  destruct H as (rd1 & n & Hkey & Hint & ->).
  destruct (newTemplate_fields L cp n) as (E1 & _).
  rewrite E1, Hkey. simpl snd.
  change (Z.shiftl 1 128) with serial_limit in Hint.
  split; [|assumption].
  apply (Hrange rd1 rd2); [reflexivity|assumption].
Qed.

(** The same of the template of every call, which is built around the
    number drawn whenever the key is generated and the number drawn. *)
Lemma serial_number_is_the_draw (L : GoLib) (cp : CertParams L)
    (rd : Reader L) :
  rand_Int_in_range L ->
  always_in_template L cp rd (fun t => 0 <= SerialNumber t < serial_limit).
Proof.
  intros Hrange. split.
  - pose proof (genCertPair_template_cases L cp rd) as H.
    destruct (genCertPair_template L cp rd) as [[[priv t]|e] rd2];
      [|exact H].
    destruct H as (rd1 & n & _ & Hint & ->).
    rewrite newTemplate_SerialNumber.
    apply (Hrange rd1 rd2 (Z.shiftl 1 128)); [reflexivity|assumption].
  - unfold genCertPair_template.
    destruct (generateKey L cp rd) as [[priv [e|]] rd1]; [exact I|].
    change serial_limit with (Z.shiftl 1 128).
    destruct (rand_Int L rd1 (Z.shiftl 1 128)) as [[n|e] rd2] eqn:Hint;
      [|exact I].
    exists (newTemplate L cp n).
    split; [reflexivity|]. split; [apply newTemplate_SerialNumber|].
    rewrite newTemplate_SerialNumber.
    apply (Hrange rd1 rd2 (Z.shiftl 1 128)); [reflexivity|assumption].
Qed.

Lemma serial_number_below_2_128_witness :
  rand_Int_in_range Sim.lib /\
  match genCertPair_template Sim.lib (NewDefaultParams Sim.lib 0)
          (Sim.counting 300) with
  | (Ok (_, t), rd2) =>
      0 <= SerialNumber t < serial_limit /\
      rand_Int Sim.lib
        (snd (generateKey Sim.lib (NewDefaultParams Sim.lib 0) (Sim.counting 300)))
        serial_limit
        = (Ok (SerialNumber t), rd2)
  | (Err e, _) => before_template e
  end.
Proof.
  split.
  - exact Sim_Int_in_range.
  - apply (serial_number_below_2_128 Sim.lib (NewDefaultParams Sim.lib 0)
             (Sim.counting 300)).
    exact Sim_Int_in_range.
Defined.

(** ** Key selection *)

(** C6. A curve name that is none of the four (the empty string included)
    makes [main] select RSA with the bit length of the flags instead of
    stopping: the parameters it builds have [Rsa] set and [RsaBits] equal
    to the flag, key generation for them is [rsa.GenerateKey] at that
    length, and [main] exits before generation only for a missing host or
    an unreadable start date. *)
Theorem unknown_curve_name_selects_rsa (L : GoLib) (f : Flags)
    (now : Time L) :
  ~ In (ecdsaCurve f) curve_names ->
  main_key_selection f = (true, rsaBits f, 0) /\
  match main_params L f now with
  | Returns cp =>
      Rsa cp = true /\
      RsaBits cp = rsaBits f /\
      forall rd : Reader L,
        generateKey L cp rd
          = assign_key L RsaPriv (rsa_GenerateKey L rd (rsaBits f))
  | Exits status _ =>
      status = 1 /\
      (host f = "" \/
       exists err : error,
         time_Parse L "Jan 2 15:04:05 2006" (validFrom f) = Err err)
  | Panics => False
  end.
Proof.
  intros Hname.
  assert (Hsel : main_key_selection f = (true, rsaBits f, 0)).
  { unfold main_key_selection, ECDSACurveFromString.
    destruct (String.eqb_spec (ecdsaCurve f) "P224") as [E|_];
      [listed Hname E|].
    destruct (String.eqb_spec (ecdsaCurve f) "P256") as [E|_];
      [listed Hname E|].
    destruct (String.eqb_spec (ecdsaCurve f) "P384") as [E|_];
      [listed Hname E|].
    destruct (String.eqb_spec (ecdsaCurve f) "P521") as [E|_];
      [listed Hname E|].
    reflexivity. }
  split; [assumption|].
  unfold main_params. rewrite Hsel.
  destruct (host f) as [|c rest] eqn:Ehost.
  - simpl. split; [reflexivity|]. left. reflexivity.
  - replace (Z.of_nat (String.length (String c rest)) =? 0) with false
      by (symmetry; apply Z.eqb_neq; simpl String.length; lia).
    destruct (Z.of_nat (String.length (validFrom f)) =? 0).
    + simpl. repeat split.
    + destruct (time_Parse L "Jan 2 15:04:05 2006" (validFrom f))
        as [t|err] eqn:Eparse.
      * simpl. repeat split.
      * split; [reflexivity|]. right. exists err. reflexivity.
Qed.

Lemma unknown_curve_name_selects_rsa_witness :
  ~ In "" curve_names /\
  main_key_selection
    (Build_Flags "localhost" "" (365 * 24 * time_Hour) false 2048 ""
       "cert.pem" "key.pem")
  = (true, 2048, 0) /\
  main_params Sim.lib
    (Build_Flags "localhost" "" (365 * 24 * time_Hour) false 2048 ""
       "cert.pem" "key.pem") 0
  = Returns (Sim.params "localhost" 0 (365 * 24 * time_Hour) false true 2048 0).
Proof.
  assert (Hname : ~ In "" curve_names).
  { simpl. intros [H|[H|[H|[H|[]]]]]; discriminate H. }
  split; [exact Hname|].
  split.
  - exact (proj1 (unknown_curve_name_selects_rsa Sim.lib
             (Build_Flags "localhost" "" (365 * 24 * time_Hour) false 2048 ""
                "cert.pem" "key.pem") 0 Hname)).
  - reflexivity.
Defined.

(** Where the library refuses to generate the key ([rsa.GenerateKey] on a
    length it rejects, a generator that finds the random source
    exhausted), the call ends with the key-generation error and nothing
    else. *)
Lemma refused_key_is_key_generation_error (L : GoLib) (cp : CertParams L)
    (rd rd1 : Reader L) (cause : error) :
  generateKey L cp rd = ((NilPriv, Some cause), rd1) ->
  genCertPair L cp rd
    = ((NilPriv, None,
        Some (fmt_Errorf "failed to generate private key: " cause)), rd1) /\
  is_key_generation_error
    (fmt_Errorf "failed to generate private key: " cause) = true.
Proof.
  intros Hkey.
  unfold genCertPair, genCertPair_template. rewrite Hkey.
  split; [reflexivity|].
  unfold is_key_generation_error, fmt_Errorf. simpl.
  destruct cause; reflexivity.
Qed.

(** C7, at a curve value outside the four constants.  With ECDSA selected
    and such a value, the switch of [genCertPair] matches no case: no key is
    generated, no error is raised and no entropy is used.  The call goes on
    to the serial number and to signing with a nil key, and ends as these
    two steps end: never with the error of key generation, and with the
    nil key as its key if signing lets it through. *)
Theorem unsupported_curve_value_is_not_refused (L : GoLib)
    (cp : CertParams L) (rd : Reader L) :
  Rsa cp = false ->
  ~ In (EcdsaCurve cp) supported_curves ->
  generateKey L cp rd = ((NilPriv, None), rd) /\
  genCertPair L cp rd
  = match rand_Int L rd (Z.shiftl 1 128) with
    | (Err e, rd2) =>
        ((NilPriv, None,
          Some (fmt_Errorf "failed to generate serial number: " e)), rd2)
    | (Ok n, rd2) =>
        match x509_CreateCertificate L rd2 (newTemplate L cp n)
                (newTemplate L cp n) NilPub NilPriv with
        | (Err e, rd3) =>
            ((NilPriv, None,
              Some (fmt_Errorf "Failed to create certificate: " e)), rd3)
        | (Ok derBytes, rd3) => ((NilPriv, Some derBytes, None), rd3)
        end
    end /\
  match genCertPair L cp rd with
  | ((_, _, Some e), _) => is_key_generation_error e = false
  | ((priv, _, None), _) => priv = NilPriv
  end.
Proof.
  intros Hrsa Hcurve.
  assert (Hkey : generateKey L cp rd = ((NilPriv, None), rd)).
  { unfold generateKey. rewrite Hrsa.
    destruct (Z.eqb_spec (EcdsaCurve cp) P224) as [E|_];
      [listed Hcurve E|].
    destruct (Z.eqb_spec (EcdsaCurve cp) P256) as [E|_];
      [listed Hcurve E|].
    destruct (Z.eqb_spec (EcdsaCurve cp) P384) as [E|_];
      [listed Hcurve E|].
    destruct (Z.eqb_spec (EcdsaCurve cp) P521) as [E|_];
      [listed Hcurve E|].
    reflexivity. }
  split; [assumption|].
  unfold genCertPair, genCertPair_template. rewrite Hkey.
  destruct (rand_Int L rd (Z.shiftl 1 128)) as [[n|e] rd2].
  - simpl publicKey.
    destruct (x509_CreateCertificate L rd2 (newTemplate L cp n)
                (newTemplate L cp n) NilPub NilPriv) as [[der|e] rd3];
      split; reflexivity.
  - split; reflexivity.
Qed.

Lemma unsupported_curve_value_is_not_refused_witness :
  generateKey Sim.lib
    (Sim.params "localhost" 0 time_Hour false false 2048 4) (Sim.counting 300)
  = ((NilPriv, None), Sim.counting 300) /\
  match genCertPair Sim.lib
          (Sim.params "localhost" 0 time_Hour false false 2048 4)
          (Sim.counting 300) with
  | ((_, _, Some e), _) => is_key_generation_error e = false
  | ((priv, _, None), _) => priv = NilPriv
  end.
Proof.
  assert (Hcurve : ~ In 4 supported_curves).
  { simpl. intros [H|[H|[H|[H|[]]]]]; discriminate H. }
  destruct (unsupported_curve_value_is_not_refused Sim.lib
              (Sim.params "localhost" 0 time_Hour false false 2048 4)
              (Sim.counting 300) eq_refl Hcurve) as (Hkey & _ & Herr).
  split; [exact Hkey|exact Herr].
Defined.

(** The same call on the executable instance, in full. *)
Example unsupported_curve_value_run :
  fst (genCertPair Sim.lib
         (Sim.params "localhost" 0 time_Hour false false 2048 4)
         (Sim.counting 300))
  = (NilPriv, None,
     Some "Failed to create certificate: x509: certificate private key does not implement crypto.Signer").
Proof. vm_compute. reflexivity. Qed.

(** ** Encoding *)

(** What [pemBlockForKey] does where the claim about the encoding fails: a
    key that is neither RSA nor ECDSA gives the nil block and no error, and
    an ECDSA key that cannot be marshalled ends the process with status 2
    after a message on standard error. *)
Lemma pemBlockForKey_has_no_error_result :
  pemBlockForKey Sim.lib NilPriv = Returns None /\
  pemBlockForKey Sim.lib (EcdsaPriv [1; 2; 3])
  = Exits 2
      "Unable to marshal ECDSA private key: x509: unknown elliptic curve".
Proof. split; reflexivity. Qed.

(** C4, as the code has it.  The certificate goes under the block type
    [CERTIFICATE]; an RSA key under [RSA PRIVATE KEY] with its PKCS#1
    bytes, an ECDSA key under [EC PRIVATE KEY] with its SEC1 bytes when it
    can be marshalled.  A key of neither type gives no block and no error.
    Encoding draws no entropy: [GenerateToMemory] leaves the random source
    as [genCertPair] left it, and its only effect is the exit with status
    2 when an ECDSA key cannot be marshalled. *)
Theorem encodePEM_block_types (L : GoLib) (cp : CertParams L)
    (rd : Reader L) :
  (forall k : RsaPrivateKey L,
     pemBlockForKey L (RsaPriv k)
     = Returns (Some {| BlockType := "RSA PRIVATE KEY";
                        BlockBytes := x509_MarshalPKCS1PrivateKey L k |})) /\
  (forall k : EcdsaPrivateKey L,
     match x509_MarshalECPrivateKey L k with
     | Ok b =>
         pemBlockForKey L (EcdsaPriv k)
         = Returns (Some {| BlockType := "EC PRIVATE KEY"; BlockBytes := b |})
     | Err err =>
         pemBlockForKey L (EcdsaPriv k)
         = Exits 2 (fmt_Errorf "Unable to marshal ECDSA private key: " err)
     end) /\
  pemBlockForKey L NilPriv = Returns None /\
  match genCertPair L cp rd with
  | ((priv, derBytes, None), rd') =>
      match GenerateToMemory L cp rd with
      | (Returns (cert, key, err), rd'') =>
          err = None /\
          cert = pem_EncodeToMemory L
                   {| BlockType := "CERTIFICATE";
                      BlockBytes := slice derBytes |} /\
          (exists block : pem_Block,
             pemBlockForKey L priv = Returns (Some block) /\
             key = pem_EncodeToMemory L block) /\
          rd'' = rd'
      | (Exits status _, rd'') =>
          status = 2 /\
          (exists (k : EcdsaPrivateKey L) (err : error),
             priv = EcdsaPriv k /\ x509_MarshalECPrivateKey L k = Err err) /\
          rd'' = rd'
      | (Panics, rd'') => priv = NilPriv /\ rd'' = rd'
      end
  | ((_, _, Some e), rd') =>
      GenerateToMemory L cp rd = (Returns (None, None, Some e), rd')
  end.
Proof.
  split; [reflexivity|].
  split.
  { intros k. unfold pemBlockForKey.
    destruct (x509_MarshalECPrivateKey L k); reflexivity. }
  split; [reflexivity|].
  unfold GenerateToMemory.
  destruct (genCertPair L cp rd) as [[[priv derBytes] [e|]] rd'].
  - reflexivity.
  - destruct priv as [k|k|]; simpl.
    + repeat split. eexists. split; reflexivity.
    + destruct (x509_MarshalECPrivateKey L k) as [b|err] eqn:Em.
      * repeat split. eexists. split; reflexivity.
      * repeat split. exists k, err. split; [reflexivity|assumption].
    + split; reflexivity.
Qed.

(** ** Failure *)

(** C8. A call that returns an error returns nothing else: [genCertPair]
    returns the nil key and the nil slice with it, [GenerateToMemory] the
    nil certificate and the nil key.  A call that returns no error
    returns the certificate bytes. *)
Theorem generation_is_all_or_nothing (L : GoLib) (cp : CertParams L)
    (rd : Reader L) :
  match genCertPair L cp rd with
  | ((priv, derBytes, Some _), _) => priv = NilPriv /\ derBytes = None
  | ((_, derBytes, None), _) => exists der : bytes, derBytes = Some der
  end /\
  match GenerateToMemory L cp rd with
  | (Returns (cert, key, Some _), _) => cert = None /\ key = None
  | (Returns (_, _, None), _) =>
      exists priv der rd',
        genCertPair L cp rd = ((priv, Some der, None), rd')
  | (Exits _ _, _) | (Panics, _) =>
      exists priv der rd',
        genCertPair L cp rd = ((priv, Some der, None), rd')
  end.
Proof.
  assert (Hpair :
    match genCertPair L cp rd with
    | ((priv, derBytes, Some _), _) => priv = NilPriv /\ derBytes = None
    | ((_, derBytes, None), _) => exists der : bytes, derBytes = Some der
    end).
  { unfold genCertPair.
    destruct (genCertPair_template L cp rd) as [[[priv t]|e] rd2].
    - destruct (x509_CreateCertificate L rd2 t t (publicKey L priv) priv)
        as [[der|e] rd3].
      + exists der. reflexivity.
      + split; reflexivity.
    - split; reflexivity. }
  split; [exact Hpair|].
  unfold GenerateToMemory.
  destruct (genCertPair L cp rd) as [[[priv derBytes] [e|]] rd'].
  - split; reflexivity.
  - destruct Hpair as [der ->].
    destruct (pemBlockForKey L priv) as [[block|]|status msg|];
      exists priv, der, rd'; reflexivity.
Qed.

(** ** More on the curve names and the key selection *)

(** X1. The curve [ECDSACurveFromString] returns is always one of the four,
    also when it reports an error: the curve is then [P224] and the error
    the fixed message.  It reports no error exactly on the four names, and
    [String] then gives the name back. *)
Theorem curve_lookup_always_supported (s : string) :
  In (fst (ECDSACurveFromString s)) supported_curves /\
  (snd (ECDSACurveFromString s) = None <-> In s curve_names) /\
  (snd (ECDSACurveFromString s) = None ->
   ECDSACurve_String (fst (ECDSACurveFromString s)) = s) /\
  (forall msg : error,
     snd (ECDSACurveFromString s) = Some msg ->
     fst (ECDSACurveFromString s) = P224 /\
     msg = "Invalid or Not supported ECDSA Curve").
Proof.
  unfold ECDSACurveFromString.
  destruct (String.eqb_spec s "P224") as [->|N1];
    [simpl; intuition (auto; discriminate)|].
  destruct (String.eqb_spec s "P256") as [->|N2];
    [simpl; intuition (auto; discriminate)|].
  destruct (String.eqb_spec s "P384") as [->|N3];
    [simpl; intuition (auto; discriminate)|].
  destruct (String.eqb_spec s "P521") as [->|N4];
    [simpl; intuition (auto; discriminate)|].
  simpl. split; [tauto|]. split; [|split].
  - split; [discriminate|].
    intros [H|[H|[H|[H|[]]]]]; symmetry in H; contradiction.
  - discriminate.
  - intros msg Hmsg. injection Hmsg as <-. split; reflexivity.
Qed.

(** What [generateKey] can give: a key of the kind the parameters select
    and no error, or an error and no key; the nil key without an error
    comes from an unsupported curve value and from nothing else, and
    costs no entropy. *)
Lemma generateKey_kinds (L : GoLib) (cp : CertParams L) (rd : Reader L) :
  match generateKey L cp rd with
  | ((RsaPriv _, None), _) => Rsa cp = true
  | ((EcdsaPriv _, None), _) =>
      Rsa cp = false /\ In (EcdsaCurve cp) supported_curves
  | ((NilPriv, None), rd1) =>
      Rsa cp = false /\ ~ In (EcdsaCurve cp) supported_curves /\ rd1 = rd
  | ((priv, Some _), _) =>
      priv = NilPriv /\
      (Rsa cp = true \/ In (EcdsaCurve cp) supported_curves)
  end.
Proof.
  unfold generateKey, assign_key.
  destruct (Rsa cp).
  { destruct (rsa_GenerateKey L rd (RsaBits cp)) as [[k|e] rd1]; auto. }
  destruct (Z.eqb_spec (EcdsaCurve cp) P224) as [E1|N1].
  { destruct (ecdsa_GenerateKey L elliptic_P224 rd) as [[k|e] rd1];
      rewrite E1; simpl; auto. }
  destruct (Z.eqb_spec (EcdsaCurve cp) P256) as [E2|N2].
  { destruct (ecdsa_GenerateKey L elliptic_P256 rd) as [[k|e] rd1];
      rewrite E2; simpl; auto. }
  destruct (Z.eqb_spec (EcdsaCurve cp) P384) as [E3|N3].
  { destruct (ecdsa_GenerateKey L elliptic_P384 rd) as [[k|e] rd1];
      rewrite E3; simpl; auto 6. }
  destruct (Z.eqb_spec (EcdsaCurve cp) P521) as [E4|N4].
  { destruct (ecdsa_GenerateKey L elliptic_P521 rd) as [[k|e] rd1];
      rewrite E4; simpl; auto 7. }
  split; [reflexivity|]. split; [|reflexivity].
  intros [H|[H|[H|[H|[]]]]]; symmetry in H; contradiction.
Qed.

(** [genCertPair], step by step. *)
Lemma genCertPair_steps (L : GoLib) (cp : CertParams L) (rd : Reader L) :
  genCertPair L cp rd
  = match generateKey L cp rd with
    | ((_, Some cause), rd1) =>
        ((NilPriv, None,
          Some (fmt_Errorf "failed to generate private key: " cause)), rd1)
    | ((priv, None), rd1) =>
        match rand_Int L rd1 (Z.shiftl 1 128) with
        | (Err cause, rd2) =>
            ((NilPriv, None,
              Some (fmt_Errorf "failed to generate serial number: " cause)),
             rd2)
        | (Ok n, rd2) =>
            match x509_CreateCertificate L rd2 (newTemplate L cp n)
                    (newTemplate L cp n) (publicKey L priv) priv with
            | (Err cause, rd3) =>
                ((NilPriv, None,
                  Some (fmt_Errorf "Failed to create certificate: " cause)),
                 rd3)
            | (Ok derBytes, rd3) => ((priv, Some derBytes, None), rd3)
            end
        end
    end.
Proof.
  unfold genCertPair, genCertPair_template.
  destruct (generateKey L cp rd) as [[priv [cause|]] rd1]; [reflexivity|].
  destruct (rand_Int L rd1 (Z.shiftl 1 128)) as [[n|cause] rd2];
    reflexivity.
Qed.

Lemma prefix_of_append (p s : string) : String.prefix p (p ++ s) = true.
Proof.
  induction p as [|c p IH]; simpl.
  - destruct s; reflexivity.
  - destruct (ascii_dec c c) as [_|N]; [assumption|contradiction].
Qed.

(** X2. A recognised curve name makes [main] select ECDSA on the curve of that
    name, and the RSA bit length of the flags then plays no part in the
    parameters. *)
Theorem known_curve_name_selects_ecdsa (L : GoLib) (f : Flags)
    (now : Time L) (bits : Z) :
  In (ecdsaCurve f) curve_names ->
  (exists e : ECDSACurve,
     In e supported_curves /\
     ECDSACurve_String e = ecdsaCurve f /\
     main_key_selection f = (false, 0, e)) /\
  main_params L (with_rsaBits f bits) now = main_params L f now.
Proof.
  intros Hname.
  assert (Hsel : exists e : ECDSACurve,
             In e supported_curves /\
             ECDSACurve_String e = ecdsaCurve f /\
             forall b, main_key_selection (with_rsaBits f b) = (false, 0, e)).
  { unfold main_key_selection. simpl ecdsaCurve.
    simpl in Hname.
    destruct Hname as [H|[H|[H|[H|[]]]]]; rewrite <- H.
    - exists P224. simpl. auto.
    - exists P256. simpl. auto.
    - exists P384. simpl. auto.
    - exists P521. simpl. auto 6. }
  destruct Hsel as (e & He & Hs & Hsel).
  split.
  - exists e. repeat split; try assumption.
    specialize (Hsel (rsaBits f)).
    destruct f. exact Hsel.
  - unfold main_params.
    rewrite (Hsel bits).
    replace (main_key_selection f) with (false, 0, e)
      by (specialize (Hsel (rsaBits f)); destruct f; symmetry; exact Hsel).
    reflexivity.
Qed.

Lemma known_curve_name_selects_ecdsa_witness :
  In "P384" curve_names /\
  (exists e : ECDSACurve,
     In e supported_curves /\
     ECDSACurve_String e = "P384" /\
     main_key_selection
       (Build_Flags "localhost" "" time_Hour false 2048 "P384" "c.pem" "k.pem")
     = (false, 0, e)) /\
  main_params Sim.lib
    (with_rsaBits
       (Build_Flags "localhost" "" time_Hour false 2048 "P384" "c.pem" "k.pem")
       4096) 0
  = main_params Sim.lib
      (Build_Flags "localhost" "" time_Hour false 2048 "P384" "c.pem" "k.pem")
      0.
Proof.
  assert (Hname : In "P384" curve_names) by (simpl; auto).
  split; [exact Hname|].
  exact (known_curve_name_selects_ecdsa Sim.lib
           (Build_Flags "localhost" "" time_Hour false 2048 "P384"
              "c.pem" "k.pem") 0 4096 Hname).
Defined.

(** X3. The parameters [main] builds from the flags as parsed never reach
    the gap of the curve switch: they select RSA or one of the four
    curves, so that key generation gives a key or an error, never the nil
    key in silence.  Where [main], the flags parsed, stops instead of
    building parameters, it is with status 1. *)
Theorem main_params_select_a_generator (L : GoLib) (f : Flags)
    (now : Time L) :
  match main_params L f now with
  | Returns cp =>
      (Rsa cp = true \/ In (EcdsaCurve cp) supported_curves) /\
      forall rd : Reader L,
        match generateKey L cp rd with
        | ((NilPriv, None), _) => False
        | ((NilPriv, Some _), _) => True
        | ((_, None), _) => True
        | ((_, Some _), _) => False
        end
  | Exits status _ => status = 1
  | Panics => False
  end.
Proof.
  unfold main_params.
  destruct (Z.of_nat (String.length (host f)) =? 0); [reflexivity|].
  assert (Hsel : match main_key_selection f with
                 | (rsa, _, curve) => rsa = true \/ In curve supported_curves
                 end).
  { unfold main_key_selection, ECDSACurveFromString.
    destruct (String.eqb (ecdsaCurve f) "P224"); [simpl; auto|].
    destruct (String.eqb (ecdsaCurve f) "P256"); [simpl; auto|].
    destruct (String.eqb (ecdsaCurve f) "P384"); [simpl; auto|].
    destruct (String.eqb (ecdsaCurve f) "P521"); [simpl; auto 6|].
    left. reflexivity. }
  destruct (main_key_selection f) as [[rsa bits] curve].
  destruct (if Z.of_nat (String.length (validFrom f)) =? 0
            then Ok now
            else time_Parse L "Jan 2 15:04:05 2006" (validFrom f))
    as [t|err]; [|reflexivity].
  split; [exact Hsel|].
  intros rd.
  match goal with |- context [generateKey L ?cp rd] =>
    pose proof (generateKey_kinds L cp rd) as Hk;
    destruct (generateKey L cp rd) as [[priv [e|]] rd1]
  end.
  - destruct priv as [k|k|]; simpl in Hk; destruct Hk as [Hnil _];
      solve [discriminate Hnil | exact I].
  - destruct priv as [k|k|]; try exact I.
    simpl in Hk. destruct Hk as (Hr & Hn & _).
    destruct Hsel as [Hs|Hs]; [congruence|contradiction].
Qed.

(** ** More on [genCertPair] *)

(** X4. An error of [genCertPair] tells the step that failed: its message
    starts with the words of exactly that step, followed by the message of
    the library, whatever that message is. *)
Theorem genCertPair_error_names_its_step (L : GoLib) (cp : CertParams L)
    (rd : Reader L) :
  match generateKey L cp rd with
  | ((_, Some cause), rd1) =>
      exists e : error,
        genCertPair L cp rd = ((NilPriv, None, Some e), rd1) /\
        error_phase e = Some KeyGeneration /\
        e = "failed to generate private key: " ++ cause
  | ((priv, None), rd1) =>
      match rand_Int L rd1 serial_limit with
      | (Err cause, rd2) =>
          exists e : error,
            genCertPair L cp rd = ((NilPriv, None, Some e), rd2) /\
            error_phase e = Some SerialNumberDraw /\
            e = "failed to generate serial number: " ++ cause
      | (Ok n, rd2) =>
          match x509_CreateCertificate L rd2 (newTemplate L cp n)
                  (newTemplate L cp n) (publicKey L priv) priv with
          | (Err cause, rd3) =>
              exists e : error,
                genCertPair L cp rd = ((NilPriv, None, Some e), rd3) /\
                error_phase e = Some Signing /\
                e = "Failed to create certificate: " ++ cause
          | (Ok _, _) => snd (fst (genCertPair L cp rd)) = None
          end
      end
  end.
Proof.
  rewrite genCertPair_steps.
  change serial_limit with (Z.shiftl 1 128).
  destruct (generateKey L cp rd) as [[priv [cause|]] rd1].
  - eexists. split; [reflexivity|]. split; [|reflexivity].
    unfold error_phase, fmt_Errorf.
    rewrite prefix_of_append. reflexivity.
  - destruct (rand_Int L rd1 (Z.shiftl 1 128)) as [[n|cause] rd2].
    + destruct (x509_CreateCertificate L rd2 (newTemplate L cp n)
                  (newTemplate L cp n) (publicKey L priv) priv)
        as [[der|cause] rd3].
      * reflexivity.
      * eexists. split; [reflexivity|]. split; [|reflexivity].
        unfold error_phase, fmt_Errorf.
        rewrite (prefix_of_append "Failed to create certificate: " cause).
        reflexivity.
    + eexists. split; [reflexivity|]. split; [|reflexivity].
      unfold error_phase, fmt_Errorf.
      rewrite (prefix_of_append "failed to generate serial number: " cause).
      reflexivity.
Qed.

(** X5. [genCertPair] fails for no reason of its own: it returns a key and a
    certificate exactly when the key generator, the serial number draw and
    [x509.CreateCertificate] all succeed, in that order on the entropy.
    The key returned is the generated one, and the certificate is the one
    created with the template as subject and as issuer, for the public
    half of that key and signed with it. *)
Theorem genCertPair_succeeds_with_its_steps (L : GoLib) (cp : CertParams L)
    (rd rd3 : Reader L)
    (priv : PrivateKey (RsaPrivateKey L) (EcdsaPrivateKey L))
    (derBytes : bytes) :
  genCertPair L cp rd = ((priv, Some derBytes, None), rd3) <->
  exists (rd1 rd2 : Reader L) (n : Z),
    generateKey L cp rd = ((priv, None), rd1) /\
    rand_Int L rd1 serial_limit = (Ok n, rd2) /\
    x509_CreateCertificate L rd2 (newTemplate L cp n) (newTemplate L cp n)
      (publicKey L priv) priv = (Ok derBytes, rd3).
Proof.
  rewrite genCertPair_steps.
  change serial_limit with (Z.shiftl 1 128).
  split.
  - destruct (generateKey L cp rd) as [[priv0 [cause|]] rd1];
      [discriminate|].
    destruct (rand_Int L rd1 (Z.shiftl 1 128)) as [[n|cause] rd2] eqn:Eint;
      [|discriminate].
    destruct (x509_CreateCertificate L rd2 (newTemplate L cp n)
                (newTemplate L cp n) (publicKey L priv0) priv0)
      as [[der|cause] rd3'] eqn:Esign; [|discriminate].
    intros H. injection H as -> -> ->.
    exists rd1, rd2, n. split; [reflexivity|]. split; assumption.
  - intros (rd1 & rd2 & n & Hkey & Hint & Hsign).
    rewrite Hkey, Hint, Hsign. reflexivity.
Qed.

(** X6. The key parameter that is not selected is not looked at: with [Rsa]
    set the curve makes no difference to the call, and with [Rsa] unset
    the bit length makes none. *)
Theorem unselected_key_parameter_ignored (L : GoLib) (cp : CertParams L)
    (rd : Reader L) (bits : Z) (curve : ECDSACurve) :
  genCertPair L
    (if Rsa cp then with_EcdsaCurve L cp curve else with_RsaBits L cp bits) rd
  = genCertPair L cp rd.
Proof.
  rewrite !genCertPair_steps.
  destruct (Rsa cp) eqn:Ersa.
  - assert (Hkey : generateKey L (with_EcdsaCurve L cp curve) rd
                   = generateKey L cp rd).
    { unfold generateKey. simpl Rsa. rewrite Ersa. reflexivity. }
    rewrite Hkey. reflexivity.
  - assert (Hkey : generateKey L (with_RsaBits L cp bits) rd
                   = generateKey L cp rd).
    { unfold generateKey. simpl Rsa. rewrite Ersa. reflexivity. }
    rewrite Hkey. reflexivity.
Qed.

(** X7. How [GenerateToMemory] can end, by what [genCertPair] returns.  On
    an error it returns that error and nothing else.  With an RSA key,
    which is what RSA selected gives, it returns.  With an ECDSA key, which
    is what ECDSA on one of the four curves gives, it returns if the key
    can be marshalled and otherwise exits with status 2 and the marshalling
    error on standard error.  With the nil key, which is what ECDSA on a
    curve value outside the four gives, it panics.  So it exits only when
    an ECDSA key cannot be marshalled, and panics only on such a curve
    value. *)
Theorem GenerateToMemory_endings (L : GoLib) (cp : CertParams L)
    (rd : Reader L) :
  match genCertPair L cp rd with
  | ((_, _, Some e), rd') =>
      GenerateToMemory L cp rd = (Returns (None, None, Some e), rd')
  | ((RsaPriv k, derBytes, None), rd') =>
      Rsa cp = true /\
      exists cert key : option bytes,
        GenerateToMemory L cp rd = (Returns (cert, key, None), rd')
  | ((EcdsaPriv k, derBytes, None), rd') =>
      Rsa cp = false /\
      In (EcdsaCurve cp) supported_curves /\
      match x509_MarshalECPrivateKey L k with
      | Ok _ =>
          exists cert key : option bytes,
            GenerateToMemory L cp rd = (Returns (cert, key, None), rd')
      | Err err =>
          GenerateToMemory L cp rd
          = (Exits 2 ("Unable to marshal ECDSA private key: " ++ err), rd')
      end
  | ((NilPriv, derBytes, None), rd') =>
      Rsa cp = false /\
      ~ In (EcdsaCurve cp) supported_curves /\
      GenerateToMemory L cp rd = (Panics, rd')
  end /\
  match GenerateToMemory L cp rd with
  | (Returns (cert, key, None), _) =>
      Rsa cp = true \/ In (EcdsaCurve cp) supported_curves
  | (Returns (_, _, Some _), _) => True
  | (Exits status msg, _) =>
      status = 2 /\ Rsa cp = false /\ In (EcdsaCurve cp) supported_curves /\
      exists (k : EcdsaPrivateKey L) (err : error),
        fst (fst (fst (genCertPair L cp rd))) = EcdsaPriv k /\
        x509_MarshalECPrivateKey L k = Err err /\
        msg = "Unable to marshal ECDSA private key: " ++ err
  | (Panics, _) => Rsa cp = false /\ ~ In (EcdsaCurve cp) supported_curves
  end.
Proof.
  assert (Hkind : forall priv derBytes rd',
             genCertPair L cp rd = ((priv, derBytes, None), rd') ->
             match priv with
             | RsaPriv _ => Rsa cp = true
             | EcdsaPriv _ =>
                 Rsa cp = false /\ In (EcdsaCurve cp) supported_curves
             | NilPriv =>
                 Rsa cp = false /\ ~ In (EcdsaCurve cp) supported_curves
             end).
  { intros priv derBytes rd'. rewrite genCertPair_steps.
    pose proof (generateKey_kinds L cp rd) as Hk.
    destruct (generateKey L cp rd) as [[priv0 [cause|]] rd1];
      [discriminate|].
    destruct (rand_Int L rd1 (Z.shiftl 1 128)) as [[n|cause] rd2];
      [|discriminate].
    destruct (x509_CreateCertificate L rd2 (newTemplate L cp n)
                (newTemplate L cp n) (publicKey L priv0) priv0)
      as [[der|cause] rd3]; [|discriminate].
    intros H. injection H as -> _ _.
    destruct priv as [k|k|]; simpl in Hk |- *; tauto. }
  unfold GenerateToMemory.
  destruct (genCertPair L cp rd) as [[[priv derBytes] [e|]] rd'] eqn:Hgen.
  { split; [destruct priv; reflexivity|exact I]. }
  specialize (Hkind priv derBytes rd' eq_refl).
  destruct priv as [k|k|]; simpl.
  - split; [|left; exact Hkind].
    split; [exact Hkind|]. eexists. eexists. reflexivity.
  - destruct Hkind as [Hr Hin].
    destruct (x509_MarshalECPrivateKey L k) as [b|err] eqn:Em.
    + split; [|right; exact Hin].
      split; [exact Hr|]. split; [exact Hin|].
      eexists. eexists. reflexivity.
    + split.
      * split; [exact Hr|]. split; [exact Hin|]. reflexivity.
      * split; [reflexivity|]. split; [exact Hr|]. split; [exact Hin|].
        exists k, err. split; [reflexivity|]. split; [exact Em|reflexivity].
  - destruct Hkind as [Hr Hn].
    split; [split; [exact Hr|split; [exact Hn|reflexivity]]|].
    split; assumption.
Qed.

(** ** More on the hosts and the template *)

Lemma append_empty_r (s : string) : s ++ "" = s.
Proof.
  induction s as [|c s IH]; simpl; [reflexivity|].
  rewrite IH. reflexivity.
Qed.

Lemma append_assoc_string (a b c : string) : (a ++ b) ++ c = a ++ (b ++ c).
Proof.
  induction a as [|x a IH]; simpl; [reflexivity|].
  rewrite IH. reflexivity.
Qed.

Lemma commas_append (a b : string) :
  commas (a ++ b) = (commas a + commas b)%nat.
Proof.
  induction a as [|x a IH]; simpl; [reflexivity|].
  destruct (Ascii.eqb x ","%char); simpl; rewrite IH; reflexivity.
Qed.

(** Joining the segments with the separator gives the string back. *)
Lemma split_from_join (s cur : string) :
  String.concat "," (split_from ","%char s cur) = cur ++ s.
Proof.
  revert cur.
  induction s as [|c rest IH]; intros cur; simpl.
  - rewrite append_empty_r. reflexivity.
  - destruct (Ascii.eqb_spec c ","%char) as [->|Hc].
    + specialize (IH "").
      pose proof (split_from_length rest "") as Hlen.
      destruct (split_from ","%char rest "") as [|seg segs];
        [discriminate Hlen|].
      cbn [String.concat]. cbn [String.concat] in IH.
      rewrite IH. reflexivity.
    + rewrite IH, append_assoc_string. reflexivity.
Qed.

(** No segment holds the separator. *)
Lemma split_from_no_comma (s cur : string) :
  commas cur = O ->
  Forall (fun h => commas h = O) (split_from ","%char s cur).
Proof.
  revert cur.
  induction s as [|c rest IH]; intros cur Hcur; simpl.
  - constructor; [assumption|constructor].
  - destruct (Ascii.eqb c ","%char) eqn:Ec.
    + constructor; [assumption|]. apply IH. reflexivity.
    + apply IH. rewrite commas_append, Hcur. simpl. rewrite Ec. reflexivity.
Qed.

(** X8. The host entries the loop of [genCertPair] goes through are the host
    string cut at its commas and at nothing else: joined with commas they
    give the string back, and none of them, so no DNS name of the
    template, holds a comma. *)
Theorem hosts_cut_at_commas_only (L : GoLib) (cp : CertParams L)
    (rd : Reader L) :
  String.concat "," (strings_Split_comma (Hosts cp)) = Hosts cp /\
  Forall (fun h => commas h = O) (strings_Split_comma (Hosts cp)) /\
  match genCertPair_template L cp rd with
  | (Ok (_, t), _) => Forall (fun d => commas d = O) (DNSNames t)
  | (Err e, _) => before_template e
  end.
Proof.
  assert (Hno : Forall (fun h => commas h = O)
                  (strings_Split_comma (Hosts cp)))
    by (apply split_from_no_comma; reflexivity).
  split; [apply (split_from_join (Hosts cp) "")|].
  split; [exact Hno|].
  pose proof (genCertPair_template_cases L cp rd) as H.
  destruct (genCertPair_template L cp rd) as [[[priv t]|e] rd2]; [|exact H].
  destruct H as (rd1 & n & _ & _ & ->).
  destruct (newTemplate_sans L cp n) as [_ Edns].
  rewrite Edns. unfold dns_sans.
  apply Forall_forall. intros d Hd.
  apply filter_In in Hd. destruct Hd as [Hd _].
  rewrite Forall_forall in Hno. apply Hno. exact Hd.
Qed.

Lemma count_occ_filter_dropped (f : string -> bool) (x : string)
    (l : list string) :
  f x = false -> count_occ string_dec (filter f l) x = O.
Proof.
  intros Hx.
  induction l as [|y l IH]; simpl; [reflexivity|].
  destruct (f y) eqn:Ey; [|assumption].
  simpl. destruct (string_dec y x) as [->|_]; [congruence|assumption].
Qed.

(** X9. Nothing is deduplicated: in the template of every call a host entry
    that is no IP literal is a DNS name as many times as it is written in
    the host string, and an entry that is an IP literal is never a DNS
    name. *)
Theorem dns_names_keep_duplicates (L : GoLib) (cp : CertParams L)
    (rd : Reader L) (h : string) :
  always_in_template L cp rd
    (fun t =>
       count_occ string_dec (DNSNames t) h
       = match net_ParseIP L h with
         | None => count_occ string_dec (strings_Split_comma (Hosts cp)) h
         | Some _ => O
         end).
Proof.
  apply always_in_template_intro. intros n. cbv beta.
  destruct (newTemplate_sans L cp n) as [_ Edns].
  rewrite Edns. unfold dns_sans.
  destruct (net_ParseIP L h) as [ip|] eqn:Ep.
  - apply count_occ_filter_dropped. rewrite Ep. reflexivity.
  - apply count_occ_filter_kept. rewrite Ep. reflexivity.
Qed.

Lemma newTemplate_constants (L : GoLib) (cp : CertParams L) (n : Z) :
  Subject (newTemplate L cp n) = {| Organization := ["Acme Co"] |} /\
  ExtKeyUsageOf (newTemplate L cp n) = [ExtKeyUsageServerAuth].
Proof.
  unfold newTemplate.
  match goal with
  | |- context [fold_left _ ?hs ?t0] =>
      destruct (hosts_frame L hs t0) as (_ & E2 & _ & _ & _ & E6 & _)
  end.
  simpl in E2, E6.
  destruct (IsCA cp); simpl; rewrite E2, E6; split; reflexivity.
Qed.

(** X10. What no parameter changes in the template of a call: the subject
    is the organization [Acme Co] and nothing else, the only extended key
    usage is server authentication, and the key usage has no bit beyond
    the digital-signature bit, the key-encipherment bit and, for a CA, the
    certificate-signing bit. *)
Theorem template_fixed_part (L : GoLib) (cp : CertParams L)
    (rd : Reader L) :
  always_in_template L cp rd
    (fun t =>
       Subject t = {| Organization := ["Acme Co"] |} /\
       ExtKeyUsageOf t = [ExtKeyUsageServerAuth] /\
       KeyUsageOf t = (if IsCA cp then 37 else 5) /\
       forall i : Z,
         Z.testbit (KeyUsageOf t) i = true ->
         i = 0 \/ i = 2 \/ (i = 5 /\ IsCA cp = true)).
Proof.
  apply always_in_template_intro. intros n. cbv beta.
  destruct (newTemplate_constants L cp n) as [E2 E6].
  destruct (newTemplate_fields L cp n) as (_ & _ & _ & E5 & _).
  rewrite E2, E6, E5.
  split; [reflexivity|]. split; [reflexivity|].
  split; [destruct (IsCA cp); reflexivity|].
  intros i Hi.
  destruct (Z.ltb_spec i 0) as [Hneg|Hpos].
  { rewrite Z.testbit_neg_r in Hi by assumption. discriminate Hi. }
  destruct (Z.ltb_spec i 6) as [Hsmall|Hbig].
  - assert (Hcases : i = 0 \/ i = 1 \/ i = 2 \/ i = 3 \/ i = 4 \/ i = 5)
      by lia.
    destruct (IsCA cp);
      destruct Hcases as [->|[->|[->|[->|[->| ->]]]]];
      try discriminate Hi; auto.
  - assert (Hhigh : Z.testbit
                      (if IsCA cp
                       then Z.lor (Z.lor KeyUsageKeyEncipherment
                                     KeyUsageDigitalSignature)
                              KeyUsageCertSign
                       else Z.lor KeyUsageKeyEncipherment
                              KeyUsageDigitalSignature) i = false).
    { destruct (IsCA cp); apply Z.bits_above_log2;
        try (vm_compute; discriminate); simpl; lia. }
    destruct (Bool.diff_true_false (eq_trans (eq_sym Hi) Hhigh)).
Qed.

(** X11. [NewDefaultParams] gives what its comment says and a little more: an
    RSA key of 2048 bits, validity from now for 365 days, no CA; and,
    [localhost] being no IP literal, the one DNS name [localhost] and no
    IP address. *)
Theorem NewDefaultParams_as_documented (L : GoLib) (now : Time L)
    (rd : Reader L) :
  net_ParseIP L "localhost" = None ->
  generateKey L (NewDefaultParams L now) rd
  = assign_key L RsaPriv (rsa_GenerateKey L rd 2048) /\
  match genCertPair_template L (NewDefaultParams L now) rd with
  | (Ok (_, t), _) =>
      NotBefore t = now /\
      NotAfter t = time_Add L now (365 * 24 * 3600 * 1000000000) /\
      DNSNames t = ["localhost"] /\
      IPAddresses t = [] /\
      IsCAOf t = false /\
      KeyUsageOf t = 5
  | (Err e, _) => before_template e
  end.
Proof.
  intros Hlocal.
  split; [reflexivity|].
  pose proof (genCertPair_template_cases L (NewDefaultParams L now) rd) as H.
  destruct (genCertPair_template L (NewDefaultParams L now) rd)
    as [[[priv t]|e] rd2]; [|exact H].
  destruct H as (rd1 & n & _ & _ & ->).
  destruct (newTemplate_sans L (NewDefaultParams L now) n) as [Eip Edns].
  destruct (newTemplate_fields L (NewDefaultParams L now) n)
    as (_ & E3 & E4 & E5 & _ & E8).
  rewrite Eip, Edns, E3, E4, E5, E8.
  simpl. rewrite Hlocal.
  repeat split.
Qed.

Lemma NewDefaultParams_as_documented_witness :
  net_ParseIP Sim.lib "localhost" = None /\
  generateKey Sim.lib (NewDefaultParams Sim.lib 1000) (Sim.counting 300)
  = assign_key Sim.lib RsaPriv
      (rsa_GenerateKey Sim.lib (Sim.counting 300) 2048) /\
  match genCertPair_template Sim.lib (NewDefaultParams Sim.lib 1000)
          (Sim.counting 300) with
  | (Ok (_, t), _) =>
      NotBefore t = 1000 /\
      NotAfter t = time_Add Sim.lib 1000 (365 * 24 * 3600 * 1000000000) /\
      DNSNames t = ["localhost"] /\
      IPAddresses t = [] /\
      IsCAOf t = false /\
      KeyUsageOf t = 5
  | (Err e, _) => before_template e
  end.
Proof.
  split; [reflexivity|].
  apply (NewDefaultParams_as_documented Sim.lib 1000 (Sim.counting 300)).
  reflexivity.
Defined.

(** ** Runs of the adapters *)

(** One step back along a run. *)
Ltac run_back H := inversion H; subst; clear H.

(** Every run of [GenerateToFile]. *)
Lemma GenerateToFile_runs (L : GoLib) (Handle : Type) (cp : CertParams L)
    (certFile keyFile : string) (rd : Reader L) (tr : list (event Handle))
    (o : outcome (option error)) :
  exec (fst (GenerateToFile L Handle cp certFile keyFile rd)) tr o ->
  match genCertPair L cp rd with
  | ((_, _, Some e), _) => tr = [] /\ o = Returns (Some e)
  | ((priv, derBytes, None), _) =>
      (exists e : error,
         tr = [EvCreate certFile (Err e)] /\
         o = Returns (Some (open_error certFile e))) \/
      (exists (c : Handle) (e1 : option error) (e : error),
         tr = key_file_refused certFile keyFile c
                (certificate_block derBytes) e1 e /\
         o = Returns (Some (open_error keyFile e))) \/
      (exists (c k : Handle) (e1 : option error),
         let start :=
           files_opened certFile keyFile c k (certificate_block derBytes) e1
         in
         match pemBlockForKey L priv with
         | Returns (Some b) =>
             exists e2 : option error,
               tr = both_files_written certFile keyFile c k
                      (certificate_block derBytes) b e1 e2 /\
               o = Returns None
         | Returns None =>
             tr = (start ++ [EvEncodeNil k; EvClose k; EvClose c])%list /\
             o = Panics
         | Exits status msg => tr = start /\ o = Exits status msg
         | Panics => tr = (start ++ [EvClose k; EvClose c])%list /\ o = Panics
         end)
  end.
Proof.
  unfold GenerateToFile.
  destruct (genCertPair L cp rd) as [[[priv derBytes] [e|]] rd'];
    simpl fst; intros H.
  - run_back H. split; reflexivity.
  - run_back H.
    destruct r as [c|e].
    + right.
      match goal with H : exec _ _ _ |- _ => run_back H end.
      match goal with H : exec _ _ _ |- _ => run_back H end.
      match goal with H : exec _ _ _ |- _ => run_back H end.
      destruct r as [k|e].
      * right. exists c, k, err. cbv zeta.
        match goal with H : exec _ _ _ |- _ => rename H into Hkey end.
        unfold encode_key in Hkey.
        destruct (pemBlockForKey L priv) as [[b|]|status msg|].
        -- run_back Hkey.
           match goal with H : exec _ _ _ |- _ => run_back H end.
           match goal with H : exec _ _ _ |- _ => run_back H end.
           match goal with H : exec _ _ _ |- _ => run_back H end.
           match goal with H : exec _ _ _ |- _ => run_back H end.
           eexists. split; reflexivity.
        -- run_back Hkey.
           match goal with H : exec _ _ _ |- _ => run_back H end.
           match goal with H : exec _ _ _ |- _ => run_back H end.
           match goal with H : exec _ _ _ |- _ => run_back H end.
           split; reflexivity.
        -- run_back Hkey. split; reflexivity.
        -- run_back Hkey.
           match goal with H : exec _ _ _ |- _ => run_back H end.
           match goal with H : exec _ _ _ |- _ => run_back H end.
           split; reflexivity.
      * left. exists c, err, e.
        match goal with H : exec _ _ _ |- _ => run_back H end.
        match goal with H : exec _ _ _ |- _ => run_back H end.
        split; reflexivity.
    + left. exists e.
      match goal with H : exec _ _ _ |- _ => run_back H end.
      split; reflexivity.
Qed.

(** The run in which both files open, whatever the writes answer. *)
Lemma GenerateToFile_full_run (L : GoLib) (Handle : Type) (cp : CertParams L)
    (certFile keyFile : string) (rd rd' : Reader L)
    (priv : PrivateKey (RsaPrivateKey L) (EcdsaPrivateKey L))
    (derBytes : option bytes) (b : pem_Block) (c k : Handle)
    (e1 e2 : option error) :
  genCertPair L cp rd = ((priv, derBytes, None), rd') ->
  pemBlockForKey L priv = Returns (Some b) ->
  exec (fst (GenerateToFile L Handle cp certFile keyFile rd))
    (both_files_written certFile keyFile c k (certificate_block derBytes) b
       e1 e2)
    (Returns None).
Proof.
  intros Hgen Hblock.
  unfold GenerateToFile, both_files_written. rewrite Hgen. simpl fst.
  apply exec_Create. apply exec_Encode. apply exec_Log.
  apply exec_OpenFile. unfold encode_key. rewrite Hblock.
  apply exec_Encode. apply exec_Log. apply exec_Close. apply exec_Close.
  apply exec_Done.
Qed.

(** The run in which the key file does not open. *)
Lemma GenerateToFile_refused_run (L : GoLib) (Handle : Type)
    (cp : CertParams L) (certFile keyFile : string) (rd rd' : Reader L)
    (priv : PrivateKey (RsaPrivateKey L) (EcdsaPrivateKey L))
    (derBytes : option bytes) (c : Handle) (e1 : option error) (e : error) :
  genCertPair L cp rd = ((priv, derBytes, None), rd') ->
  exec (fst (GenerateToFile L Handle cp certFile keyFile rd))
    (key_file_refused certFile keyFile c (certificate_block derBytes) e1 e)
    (Returns (Some (open_error keyFile e))).
Proof.
  intros Hgen.
  unfold GenerateToFile, key_file_refused. rewrite Hgen. simpl fst.
  apply exec_Create. apply exec_Encode. apply exec_Log.
  apply exec_OpenFile. apply exec_Close. apply exec_Done.
Qed.

Lemma sample_generation :
  genCertPair Sim.lib sample_params sample_entropy
  = ((EcdsaPriv (firstn 32 sample_entropy),
      snd (fst (fst (genCertPair Sim.lib sample_params sample_entropy))),
      None),
     skipn 48 sample_entropy).
Proof. vm_compute. reflexivity. Qed.

Lemma sample_full_disk_runs :
  exec (fst (GenerateToFile Sim.lib nat sample_params "cert.pem" "key.pem"
               sample_entropy))
    sample_run_full_disk (Returns None).
Proof.
  apply (GenerateToFile_full_run Sim.lib nat sample_params "cert.pem"
           "key.pem" sample_entropy _ _ _ sample_key_block 3%nat 4%nat _ _
           sample_generation).
  reflexivity.
Qed.

Lemma sample_key_refused_runs :
  exec (fst (GenerateToFile Sim.lib nat sample_params "cert.pem" "/key.pem"
               sample_entropy))
    sample_run_key_refused
    (Returns (Some (open_error "/key.pem" "open /key.pem: permission denied"))).
Proof.
  exact (GenerateToFile_refused_run Sim.lib nat sample_params "cert.pem"
           "/key.pem" sample_entropy _ _ _ 3%nat None _ sample_generation).
Qed.

(** X12. [GenerateToFile] touches no file unless the pair has been generated:
    when [genCertPair] fails the call makes no system call at all and
    returns that error as it is, and otherwise its first call creates the
    certificate file.  The entropy it uses is that of [genCertPair]. *)
Theorem GenerateToFile_failure_touches_nothing (L : GoLib) (Handle : Type)
    (cp : CertParams L) (certFile keyFile : string) (rd : Reader L)
    (tr : list (event Handle)) (o : outcome (option error)) :
  exec (fst (GenerateToFile L Handle cp certFile keyFile rd)) tr o ->
  snd (GenerateToFile L Handle cp certFile keyFile rd)
  = snd (genCertPair L cp rd) /\
  match snd (fst (genCertPair L cp rd)) with
  | Some e => tr = [] /\ o = Returns (Some e)
  | None => exists r, hd_error tr = Some (EvCreate certFile r)
  end.
Proof.
  intros Hrun.
  split.
  { unfold GenerateToFile.
    destruct (genCertPair L cp rd) as [[[priv derBytes] err] rd'].
    reflexivity. }
  apply GenerateToFile_runs in Hrun.
  destruct (genCertPair L cp rd) as [[[priv derBytes] [e|]] rd'];
    simpl snd; [exact Hrun|].
  destruct Hrun as [(e & -> & _)|[(c & e1 & e & -> & _)|(c & k & e1 & Hrun)]].
  - eexists. reflexivity.
  - eexists. reflexivity.
  - cbv zeta in Hrun.
    destruct (pemBlockForKey L priv) as [[b|]|status msg|].
    + destruct Hrun as (e2 & -> & _). eexists. reflexivity.
    + destruct Hrun as (-> & _). eexists. reflexivity.
    + destruct Hrun as (-> & _). eexists. reflexivity.
    + destruct Hrun as (-> & _). eexists. reflexivity.
Qed.

Lemma GenerateToFile_failure_touches_nothing_witness :
  exec (fst (GenerateToFile Sim.lib nat sample_params "cert.pem" "key.pem" []))
    [] (Returns (Some "failed to generate private key: EOF")) /\
  snd (GenerateToFile Sim.lib nat sample_params "cert.pem" "key.pem" [])
  = snd (genCertPair Sim.lib sample_params []) /\
  match snd (fst (genCertPair Sim.lib sample_params [])) with
  | Some e =>
      @nil (event nat) = [] /\
      Returns (Some "failed to generate private key: EOF") = Returns (Some e)
  | None => exists r, hd_error (@nil (event nat)) = Some (EvCreate "cert.pem" r)
  end.
Proof.
  assert (Hrun :
    exec (fst (GenerateToFile Sim.lib nat sample_params "cert.pem" "key.pem"
                 []))
      [] (Returns (Some "failed to generate private key: EOF")))
    by apply exec_Done.
  split; [exact Hrun|].
  exact (GenerateToFile_failure_touches_nothing Sim.lib nat sample_params
           "cert.pem" "key.pem" [] [] _ Hrun).
Defined.

(** Finishing a case of [GenerateToFile_runs]: the trace is known. *)
Ltac known_trace :=
  unfold both_files_written, key_file_refused, files_opened in *;
  subst; cbn.

(** X13. In no run of [GenerateToFile] is a file opened in any other way than
    these: the certificate file by [os.Create], first of all; the key file
    by [os.OpenFile] for writing, created if missing, truncated, with
    permission [0600] (384), at most once and only once the certificate
    has been written out and logged. *)
Theorem GenerateToFile_opens_key_file_0600 (L : GoLib) (Handle : Type)
    (cp : CertParams L) (certFile keyFile : string) (rd : Reader L)
    (tr : list (event Handle)) (o : outcome (option error)) :
  exec (fst (GenerateToFile L Handle cp certFile keyFile rd)) tr o ->
  (forall name r, In (EvCreate name r) tr ->
     name = certFile /\ hd_error tr = Some (EvCreate name r)) /\
  (opens_by_OpenFile tr = [] \/
   opens_by_OpenFile tr = [(keyFile, [O_WRONLY; O_CREATE; O_TRUNC], 384)] /\
   exists (c : Handle) (e1 : option error),
     firstn 3 tr
     = [EvCreate certFile (Ok c);
        EvEncode c
          (certificate_block (snd (fst (fst (genCertPair L cp rd))))) e1;
        EvLog ("written " ++ certFile ++ newline)]).
Proof.
  intros Hrun.
  apply GenerateToFile_runs in Hrun.
  destruct (genCertPair L cp rd) as [[[priv derBytes] [e|]] rd'].
  { destruct Hrun as [-> _]. split; [intros name r []|left; reflexivity]. }
  simpl snd.
  destruct Hrun as [(e & -> & _)|[(c & e1 & e & -> & _)|(c & k & e1 & Hrun)]].
  - split; [|left; reflexivity].
    intros name r [Hin|[]]. injection Hin as <- <-. split; reflexivity.
  - split.
    + intros name r Hin. known_trace. cbn in Hin.
      destruct Hin as [Hin|[Hin|[Hin|[Hin|[Hin|[]]]]]];
        try discriminate Hin.
      injection Hin as <- <-. split; reflexivity.
    + right. known_trace. split; [reflexivity|].
      exists c, e1. reflexivity.
  - cbv zeta in Hrun.
    destruct (pemBlockForKey L priv) as [[b|]|status msg|].
    + destruct Hrun as (e2 & -> & _). split.
      * intros name r Hin. known_trace. cbn in Hin.
        destruct Hin as [Hin|[Hin|[Hin|[Hin|[Hin|[Hin|[Hin|[Hin|[]]]]]]]]];
          try discriminate Hin.
        injection Hin as <- <-. split; reflexivity.
      * right. known_trace. split; [reflexivity|].
        exists c, e1. reflexivity.
    + destruct Hrun as (-> & _). split.
      * intros name r Hin. known_trace. cbn in Hin.
        destruct Hin as [Hin|[Hin|[Hin|[Hin|[Hin|[Hin|[Hin|[]]]]]]]];
          try discriminate Hin.
        injection Hin as <- <-. split; reflexivity.
      * right. known_trace. split; [reflexivity|].
        exists c, e1. reflexivity.
    + destruct Hrun as (-> & _). split.
      * intros name r Hin. known_trace. cbn in Hin.
        destruct Hin as [Hin|[Hin|[Hin|[Hin|[]]]]];
          try discriminate Hin.
        injection Hin as <- <-. split; reflexivity.
      * right. known_trace. split; [reflexivity|].
        exists c, e1. reflexivity.
    + destruct Hrun as (-> & _). split.
      * intros name r Hin. known_trace. cbn in Hin.
        destruct Hin as [Hin|[Hin|[Hin|[Hin|[Hin|[Hin|[]]]]]]];
          try discriminate Hin.
        injection Hin as <- <-. split; reflexivity.
      * right. known_trace. split; [reflexivity|].
        exists c, e1. reflexivity.
Qed.

Lemma GenerateToFile_opens_key_file_0600_witness :
  exec (fst (GenerateToFile Sim.lib nat sample_params "cert.pem" "key.pem"
               sample_entropy))
    sample_run_full_disk (Returns None) /\
  (forall name r, In (EvCreate name r) sample_run_full_disk ->
     name = "cert.pem" /\
     hd_error sample_run_full_disk = Some (EvCreate name r)) /\
  (opens_by_OpenFile sample_run_full_disk = [] \/
   opens_by_OpenFile sample_run_full_disk
   = [("key.pem", [O_WRONLY; O_CREATE; O_TRUNC], 384)] /\
   exists (c : nat) (e1 : option error),
     firstn 3 sample_run_full_disk
     = [EvCreate "cert.pem" (Ok c);
        EvEncode c
          (certificate_block
             (snd (fst (fst (genCertPair Sim.lib sample_params
                               sample_entropy))))) e1;
        EvLog ("written " ++ "cert.pem" ++ newline)]).
Proof.
  split; [exact sample_full_disk_runs|].
  exact (GenerateToFile_opens_key_file_0600 Sim.lib nat sample_params
           "cert.pem" "key.pem" sample_entropy sample_run_full_disk _
           sample_full_disk_runs).
Defined.

(** X14. [GenerateToFile] closes what it opens.  In a run that returns or
    panics, the handles closed are the handles obtained, the last one
    first, and after the first [Close] nothing is written and nothing
    opened.  A run that ends in [os.Exit] (a key that cannot be
    marshalled) closes nothing: the deferred calls do not run. *)
Theorem GenerateToFile_closes_what_it_opens (L : GoLib) (Handle : Type)
    (cp : CertParams L) (certFile keyFile : string) (rd : Reader L)
    (tr : list (event Handle)) (o : outcome (option error)) :
  exec (fst (GenerateToFile L Handle cp certFile keyFile rd)) tr o ->
  match o with
  | Exits _ _ => closed tr = []
  | _ => closed tr = rev (opened tr)
  end /\
  encoded (after_first_close tr) = [] /\
  opened (after_first_close tr) = [].
Proof.
  intros Hrun.
  apply GenerateToFile_runs in Hrun.
  destruct (genCertPair L cp rd) as [[[priv derBytes] [e|]] rd'].
  { destruct Hrun as [-> ->]. repeat split. }
  destruct Hrun as [(e & -> & ->)|[(c & e1 & e & -> & ->)|(c & k & e1 & Hrun)]].
  - repeat split.
  - known_trace. repeat split.
  - cbv zeta in Hrun.
    destruct (pemBlockForKey L priv) as [[b|]|status msg|].
    + destruct Hrun as (e2 & -> & ->). known_trace. repeat split.
    + destruct Hrun as (-> & ->). known_trace. repeat split.
    + destruct Hrun as (-> & ->). known_trace. repeat split.
    + destruct Hrun as (-> & ->). known_trace. repeat split.
Qed.

Lemma GenerateToFile_closes_what_it_opens_witness :
  exec (fst (GenerateToFile Sim.lib nat sample_params "cert.pem" "key.pem"
               sample_entropy))
    sample_run_full_disk (Returns None) /\
  closed sample_run_full_disk = rev (opened sample_run_full_disk) /\
  encoded (after_first_close sample_run_full_disk) = [] /\
  opened (after_first_close sample_run_full_disk) = [].
Proof.
  split; [exact sample_full_disk_runs|].
  exact (GenerateToFile_closes_what_it_opens Sim.lib nat sample_params
           "cert.pem" "key.pem" sample_entropy sample_run_full_disk _
           sample_full_disk_runs).
Defined.

(** X15. [GenerateToFile] does not report a failed write.  An error it returns
    is the error of [genCertPair] or the failure to open one of the two
    files; and once both files are open and the key has its block, the
    call returns nil whatever [pem.Encode] answered, both writes failing
    included. *)
Theorem GenerateToFile_drops_write_errors (L : GoLib) (Handle : Type)
    (cp : CertParams L) (certFile keyFile : string) (rd rd' : Reader L)
    (priv : PrivateKey (RsaPrivateKey L) (EcdsaPrivateKey L))
    (derBytes : option bytes) (b : pem_Block) :
  genCertPair L cp rd = ((priv, derBytes, None), rd') ->
  pemBlockForKey L priv = Returns (Some b) ->
  (forall (c k : Handle) (e1 e2 : option error),
     exec (fst (GenerateToFile L Handle cp certFile keyFile rd))
       (both_files_written certFile keyFile c k (certificate_block derBytes)
          b e1 e2)
       (Returns None)) /\
  (forall (tr : list (event Handle)) (e : error),
     exec (fst (GenerateToFile L Handle cp certFile keyFile rd)) tr
       (Returns (Some e)) ->
     exists (name : string) (cause : error),
       (name = certFile \/ name = keyFile) /\
       e = open_error name cause /\
       In cause
         (flat_map (fun ev => match ev with
                              | EvCreate _ (Err x) => [x]
                              | EvOpenFile _ _ _ (Err x) => [x]
                              | _ => []
                              end) tr)).
Proof.
  intros Hgen Hblock.
  split.
  - intros c k e1 e2.
    apply (GenerateToFile_full_run L Handle cp certFile keyFile rd rd' priv);
      assumption.
  - intros tr e Hrun.
    apply GenerateToFile_runs in Hrun.
    rewrite Hgen, Hblock in Hrun.
    destruct Hrun as [(x & -> & Ho)|[(c & e1 & x & -> & Ho)|(c & k & e1 & Hrun)]].
    + injection Ho as ->. exists certFile, x.
      split; [left; reflexivity|]. split; [reflexivity|]. left. reflexivity.
    + injection Ho as ->. exists keyFile, x.
      split; [right; reflexivity|]. split; [reflexivity|].
      known_trace. left. reflexivity.
    + cbv zeta in Hrun. destruct Hrun as (e2 & _ & Ho). discriminate Ho.
Qed.

Lemma GenerateToFile_drops_write_errors_witness :
  genCertPair Sim.lib sample_params sample_entropy
  = ((EcdsaPriv (firstn 32 sample_entropy),
      snd (fst (fst (genCertPair Sim.lib sample_params sample_entropy))),
      None),
     skipn 48 sample_entropy) /\
  pemBlockForKey Sim.lib (EcdsaPriv (firstn 32 sample_entropy))
  = Returns (Some sample_key_block) /\
  exec (fst (GenerateToFile Sim.lib nat sample_params "cert.pem" "key.pem"
               sample_entropy))
    sample_run_full_disk (Returns None).
Proof.
  split; [exact sample_generation|].
  split; [reflexivity|].
  exact (proj1 (GenerateToFile_drops_write_errors Sim.lib nat sample_params
                  "cert.pem" "key.pem" sample_entropy _ _ _ sample_key_block
                  sample_generation eq_refl)
           3%nat 4%nat (Some "no space left on device")
           (Some "no space left on device")).
Defined.

(** X16. Files are not all or nothing.  When the key file cannot be opened,
    [GenerateToFile] returns the error that names the key file, and by
    then it has created the certificate file, written the certificate to
    it and closed it. *)
Theorem GenerateToFile_key_failure_leaves_certificate (L : GoLib)
    (Handle : Type) (cp : CertParams L) (certFile keyFile : string)
    (rd : Reader L) (tr : list (event Handle)) (o : outcome (option error))
    (name : string) (flag : list open_flag) (perm : Z) (e : error) :
  exec (fst (GenerateToFile L Handle cp certFile keyFile rd)) tr o ->
  In (EvOpenFile name flag perm (Err e)) tr ->
  o = Returns (Some ("failed to open " ++ keyFile ++ " for writing: " ++ e)) /\
  exists (c : Handle) (e1 : option error),
    tr = key_file_refused certFile keyFile c
           (certificate_block (snd (fst (fst (genCertPair L cp rd))))) e1 e /\
    encoded tr
    = [(c, certificate_block (snd (fst (fst (genCertPair L cp rd)))))] /\
    closed tr = [c].
Proof.
  intros Hrun Hin.
  apply GenerateToFile_runs in Hrun.
  destruct (genCertPair L cp rd) as [[[priv derBytes] [x|]] rd'].
  { destruct Hrun as [-> _]. destruct Hin. }
  simpl snd.
  destruct Hrun as [(x & -> & _)|[(c & e1 & x & -> & ->)|(c & k & e1 & Hrun)]].
  - destruct Hin as [Hin|[]]. discriminate Hin.
  - unfold key_file_refused in Hin. cbn in Hin.
    destruct Hin as [Hin|[Hin|[Hin|[Hin|[Hin|[]]]]]]; try discriminate Hin.
    injection Hin as _ _ _ ->.
    split; [reflexivity|]. exists c, e1. repeat split.
  - exfalso. cbv zeta in Hrun.
    destruct (pemBlockForKey L priv) as [[b|]|status msg|].
    + destruct Hrun as (e2 & -> & _). known_trace. cbn in Hin.
      decompose [or] Hin; try discriminate; assumption.
    + destruct Hrun as (-> & _). known_trace. cbn in Hin.
      decompose [or] Hin; try discriminate; assumption.
    + destruct Hrun as (-> & _). known_trace. cbn in Hin.
      decompose [or] Hin; try discriminate; assumption.
    + destruct Hrun as (-> & _). known_trace. cbn in Hin.
      decompose [or] Hin; try discriminate; assumption.
Qed.

Lemma GenerateToFile_key_failure_leaves_certificate_witness :
  exec (fst (GenerateToFile Sim.lib nat sample_params "cert.pem" "/key.pem"
               sample_entropy))
    sample_run_key_refused
    (Returns (Some (open_error "/key.pem" "open /key.pem: permission denied")))
  /\
  In (EvOpenFile "/key.pem" [O_WRONLY; O_CREATE; O_TRUNC] perm_0600
        (Err "open /key.pem: permission denied"))
    sample_run_key_refused /\
  Returns (Some (open_error "/key.pem" "open /key.pem: permission denied"))
  = Returns
      (Some ("failed to open " ++ "/key.pem" ++ " for writing: "
             ++ "open /key.pem: permission denied")) /\
  exists (c : nat) (e1 : option error),
    sample_run_key_refused
    = key_file_refused "cert.pem" "/key.pem" c
        (certificate_block
           (snd (fst (fst (genCertPair Sim.lib sample_params
                             sample_entropy))))) e1
        "open /key.pem: permission denied" /\
    encoded sample_run_key_refused
    = [(c, certificate_block
             (snd (fst (fst (genCertPair Sim.lib sample_params
                               sample_entropy)))))] /\
    closed sample_run_key_refused = [c].
Proof.
  assert (Hin :
    In (EvOpenFile "/key.pem" [O_WRONLY; O_CREATE; O_TRUNC] perm_0600
          (Err "open /key.pem: permission denied"))
      sample_run_key_refused)
    by (cbn; auto).
  split; [exact sample_key_refused_runs|].
  split; [exact Hin|].
  exact (GenerateToFile_key_failure_leaves_certificate Sim.lib nat
           sample_params "cert.pem" "/key.pem" sample_entropy
           sample_run_key_refused _ _ _ _ _ sample_key_refused_runs Hin).
Defined.

(** Every run of [GenerateToWriter]. *)
Lemma GenerateToWriter_runs (L : GoLib) (Handle : Type) (cp : CertParams L)
    (certWriter keyWriter : Handle) (rd : Reader L)
    (tr : list (event Handle)) (o : outcome (option error)) :
  exec (fst (GenerateToWriter L Handle cp certWriter keyWriter rd)) tr o ->
  match genCertPair L cp rd with
  | ((_, _, Some e), _) => tr = [] /\ o = Returns (Some e)
  | ((priv, derBytes, None), _) =>
      exists e1 : option error,
        let first := EvEncode certWriter (certificate_block derBytes) e1 in
        match pemBlockForKey L priv with
        | Returns (Some b) =>
            exists e2 : option error,
              tr = [first; EvEncode keyWriter b e2] /\ o = Returns None
        | Returns None => tr = [first; EvEncodeNil keyWriter] /\ o = Panics
        | Exits status msg => tr = [first] /\ o = Exits status msg
        | Panics => tr = [first] /\ o = Panics
        end
  end.
Proof.
  unfold GenerateToWriter.
  destruct (genCertPair L cp rd) as [[[priv derBytes] [e|]] rd'];
    simpl fst; intros H.
  - run_back H. split; reflexivity.
  - run_back H. exists err. cbv zeta.
    match goal with H : exec _ _ _ |- _ => rename H into Hkey end.
    unfold encode_key in Hkey.
    destruct (pemBlockForKey L priv) as [[b|]|status msg|].
    + run_back Hkey.
      match goal with H : exec _ _ _ |- _ => run_back H end.
      eexists. split; reflexivity.
    + run_back Hkey.
      match goal with H : exec _ _ _ |- _ => run_back H end.
      split; reflexivity.
    + run_back Hkey. split; reflexivity.
    + run_back Hkey. split; reflexivity.
Qed.

Lemma sample_writer_runs :
  exec (fst (GenerateToWriter Sim.lib nat sample_params 7%nat 7%nat
               sample_entropy))
    [EvEncode 7%nat sample_cert_block (Some "broken pipe");
     EvEncode 7%nat sample_key_block None]
    (Returns None).
Proof.
  unfold GenerateToWriter. rewrite sample_generation. simpl fst.
  apply exec_Encode. unfold encode_key.
  change (pemBlockForKey Sim.lib (EcdsaPriv (firstn 32 sample_entropy)))
    with (@Returns (option pem_Block) (Some sample_key_block)).
  apply exec_Encode. apply exec_Done.
Qed.

(** X17. [GenerateToWriter] writes nothing when the pair cannot be generated and
    returns that error.  Otherwise its first call writes the certificate to
    the certificate writer; if it returns at all it returns nil, having
    written the certificate and then the key, whatever the writers
    answered: into one writer given twice, the certificate comes first. *)
Theorem GenerateToWriter_certificate_then_key (L : GoLib) (Handle : Type)
    (cp : CertParams L) (certWriter keyWriter : Handle) (rd : Reader L)
    (tr : list (event Handle)) (o : outcome (option error)) :
  exec (fst (GenerateToWriter L Handle cp certWriter keyWriter rd)) tr o ->
  match genCertPair L cp rd with
  | ((_, _, Some e), _) => tr = [] /\ o = Returns (Some e)
  | ((priv, derBytes, None), _) =>
      (exists e1 : option error,
         hd_error tr
         = Some (EvEncode certWriter (certificate_block derBytes) e1)) /\
      forall r : option error,
        o = Returns r ->
        r = None /\
        exists b : pem_Block,
          key_block L priv = Some b /\
          encoded tr
          = [(certWriter, certificate_block derBytes); (keyWriter, b)]
  end.
Proof.
  intros Hrun.
  apply GenerateToWriter_runs in Hrun.
  destruct (genCertPair L cp rd) as [[[priv derBytes] [e|]] rd'];
    [exact Hrun|].
  destruct Hrun as (e1 & Hrun). cbv zeta in Hrun.
  unfold key_block.
  destruct (pemBlockForKey L priv) as [[b|]|status msg|].
  - destruct Hrun as (e2 & -> & ->).
    split; [exists e1; reflexivity|].
    intros r Hr. injection Hr as <-.
    split; [reflexivity|]. exists b. split; reflexivity.
  - destruct Hrun as (-> & ->).
    split; [exists e1; reflexivity|]. intros r Hr. discriminate Hr.
  - destruct Hrun as (-> & ->).
    split; [exists e1; reflexivity|]. intros r Hr. discriminate Hr.
  - destruct Hrun as (-> & ->).
    split; [exists e1; reflexivity|]. intros r Hr. discriminate Hr.
Qed.

Lemma GenerateToWriter_certificate_then_key_witness :
  exec (fst (GenerateToWriter Sim.lib nat sample_params 7%nat 7%nat
               sample_entropy))
    [EvEncode 7%nat sample_cert_block (Some "broken pipe");
     EvEncode 7%nat sample_key_block None]
    (Returns None) /\
  match genCertPair Sim.lib sample_params sample_entropy with
  | ((_, _, Some e), _) =>
      [EvEncode 7%nat sample_cert_block (Some "broken pipe");
       EvEncode 7%nat sample_key_block None] = [] /\
      Returns None = Returns (Some e)
  | ((priv, derBytes, None), _) =>
      (exists e1 : option error,
         hd_error [EvEncode 7%nat sample_cert_block (Some "broken pipe");
                   EvEncode 7%nat sample_key_block None]
         = Some (EvEncode 7%nat (certificate_block derBytes) e1)) /\
      forall r : option error,
        Returns None = Returns r ->
        r = None /\
        exists b : pem_Block,
          key_block Sim.lib priv = Some b /\
          encoded [EvEncode 7%nat sample_cert_block (Some "broken pipe");
                   EvEncode 7%nat sample_key_block None]
          = [(7%nat, certificate_block derBytes); (7%nat, b)]
  end.
Proof.
  split; [exact sample_writer_runs|].
  exact (GenerateToWriter_certificate_then_key Sim.lib nat sample_params
           7%nat 7%nat sample_entropy _ _ sample_writer_runs).
Defined.

(** X18. The three adapters deliver the same pair.  A run of [GenerateToFile] or
    of [GenerateToWriter] that returns nil has encoded two blocks, and
    [GenerateToMemory] on the same parameters and entropy returns the
    encodings in memory of these two blocks, leaving the entropy that
    [genCertPair] leaves. *)
Theorem adapters_encode_the_same_blocks (L : GoLib) (Handle : Type)
    (cp : CertParams L) (certFile keyFile : string)
    (certWriter keyWriter : Handle) (rd : Reader L)
    (tr : list (event Handle)) :
  exec (fst (GenerateToFile L Handle cp certFile keyFile rd)) tr
    (Returns None) \/
  exec (fst (GenerateToWriter L Handle cp certWriter keyWriter rd)) tr
    (Returns None) ->
  exists b1 b2 : pem_Block,
    map snd (encoded tr) = [b1; b2] /\
    BlockType b1 = "CERTIFICATE" /\
    GenerateToMemory L cp rd
    = (Returns (pem_EncodeToMemory L b1, pem_EncodeToMemory L b2, None),
       snd (genCertPair L cp rd)).
Proof.
  intros [Hrun|Hrun].
  - apply GenerateToFile_runs in Hrun.
    unfold GenerateToMemory.
    destruct (genCertPair L cp rd) as [[[priv derBytes] [e|]] rd'].
    { destruct Hrun as [_ Ho]. discriminate Ho. }
    destruct Hrun as [(e & _ & Ho)|[(c & e1 & e & _ & Ho)|(c & k & e1 & Hrun)]];
      try discriminate Ho.
    cbv zeta in Hrun.
    destruct (pemBlockForKey L priv) as [[b|]|status msg|].
    + destruct Hrun as (e2 & -> & _).
      exists (certificate_block derBytes), b. repeat split.
    + destruct Hrun as (_ & Ho). discriminate Ho.
    + destruct Hrun as (_ & Ho). discriminate Ho.
    + destruct Hrun as (_ & Ho). discriminate Ho.
  - apply GenerateToWriter_runs in Hrun.
    unfold GenerateToMemory.
    destruct (genCertPair L cp rd) as [[[priv derBytes] [e|]] rd'].
    { destruct Hrun as [_ Ho]. discriminate Ho. }
    destruct Hrun as (e1 & Hrun). cbv zeta in Hrun.
    destruct (pemBlockForKey L priv) as [[b|]|status msg|].
    + destruct Hrun as (e2 & -> & _).
      exists (certificate_block derBytes), b. repeat split.
    + destruct Hrun as (_ & Ho). discriminate Ho.
    + destruct Hrun as (_ & Ho). discriminate Ho.
    + destruct Hrun as (_ & Ho). discriminate Ho.
Qed.

Lemma adapters_encode_the_same_blocks_witness :
  exec (fst (GenerateToWriter Sim.lib nat sample_params 7%nat 7%nat
               sample_entropy))
    [EvEncode 7%nat sample_cert_block (Some "broken pipe");
     EvEncode 7%nat sample_key_block None]
    (Returns None) /\
  exists b1 b2 : pem_Block,
    map snd (encoded [EvEncode 7%nat sample_cert_block (Some "broken pipe");
                      EvEncode 7%nat sample_key_block None])
    = [b1; b2] /\
    BlockType b1 = "CERTIFICATE" /\
    GenerateToMemory Sim.lib sample_params sample_entropy
    = (Returns (pem_EncodeToMemory Sim.lib b1, pem_EncodeToMemory Sim.lib b2,
                None),
       snd (genCertPair Sim.lib sample_params sample_entropy)).
Proof.
  split; [exact sample_writer_runs|].
  exact (adapters_encode_the_same_blocks Sim.lib nat sample_params
           "cert.pem" "key.pem" 7%nat 7%nat sample_entropy _
           (or_intror sample_writer_runs)).
Defined.

(** ** Runs of [main] *)

(** A run of a call followed by a continuation is a run of the call
    followed, if the call returns, by a run of the continuation. *)
Lemma exec_sys_then (Handle A B : Type) (p : sys Handle A)
    (rest : A -> sys Handle B) (tr : list (event Handle)) (o : outcome B) :
  exec (sys_then Handle p rest) tr o ->
  exists (tr1 : list (event Handle)) (o1 : outcome A),
    exec p tr1 o1 /\
    match o1 with
    | Returns a =>
        exists tr2 : list (event Handle),
          exec (rest a) tr2 o /\ tr = (tr1 ++ tr2)%list
    | Exits status msg => o = Exits status msg /\ tr = tr1
    | Panics => o = Panics /\ tr = tr1
    end.
Proof.
  revert tr.
  induction p as [o0|name k IH|name flag perm k IH|out b k IH|out k IH
                  |f k IH|msg k IH|msg k IH];
    intros tr H; simpl in H.
  - destruct o0 as [a|status msg|].
    + exists [], (Returns a). split; [constructor|].
      exists tr. split; [assumption|reflexivity].
    + run_back H. exists [], (Exits status msg).
      split; [constructor|split; reflexivity].
    + run_back H. exists [], Panics.
      split; [constructor|split; reflexivity].
  - run_back H.
    match goal with H : exec _ _ _ |- _ => apply IH in H;
      destruct H as (tr1 & o1 & Hp & Hrest) end.
    exists (EvCreate name r :: tr1), o1. split; [constructor; assumption|].
    destruct o1 as [a|status msg|].
    + destruct Hrest as (tr2 & Hr & ->). exists tr2. split; auto.
    + destruct Hrest as (-> & ->). split; reflexivity.
    + destruct Hrest as (-> & ->). split; reflexivity.
  - run_back H.
    match goal with H : exec _ _ _ |- _ => apply IH in H;
      destruct H as (tr1 & o1 & Hp & Hrest) end.
    exists (EvOpenFile name flag perm r :: tr1), o1.
    split; [constructor; assumption|].
    destruct o1 as [a|status msg|].
    + destruct Hrest as (tr2 & Hr & ->). exists tr2. split; auto.
    + destruct Hrest as (-> & ->). split; reflexivity.
    + destruct Hrest as (-> & ->). split; reflexivity.
  - run_back H.
    match goal with H : exec _ _ _ |- _ => apply IH in H;
      destruct H as (tr1 & o1 & Hp & Hrest) end.
    exists (EvEncode out b err :: tr1), o1.
    split; [constructor; assumption|].
    destruct o1 as [a|status msg|].
    + destruct Hrest as (tr2 & Hr & ->). exists tr2. split; auto.
    + destruct Hrest as (-> & ->). split; reflexivity.
    + destruct Hrest as (-> & ->). split; reflexivity.
  - run_back H.
    match goal with H : exec _ _ _ |- _ => apply IH in H;
      destruct H as (tr1 & o1 & Hp & Hrest) end.
    exists (EvEncodeNil out :: tr1), o1.
    split; [constructor; assumption|].
    destruct o1 as [a|status msg|].
    + destruct Hrest as (tr2 & Hr & ->). exists tr2. split; auto.
    + destruct Hrest as (-> & ->). split; reflexivity.
    + destruct Hrest as (-> & ->). split; reflexivity.
  - run_back H.
    match goal with H : exec _ _ _ |- _ => apply IH in H;
      destruct H as (tr1 & o1 & Hp & Hrest) end.
    exists (EvClose f :: tr1), o1.
    split; [constructor; assumption|].
    destruct o1 as [a|status msg|].
    + destruct Hrest as (tr2 & Hr & ->). exists tr2. split; auto.
    + destruct Hrest as (-> & ->). split; reflexivity.
    + destruct Hrest as (-> & ->). split; reflexivity.
  - run_back H.
    match goal with H : exec _ _ _ |- _ => apply IH in H;
      destruct H as (tr1 & o1 & Hp & Hrest) end.
    exists (EvLog msg :: tr1), o1.
    split; [constructor; assumption|].
    destruct o1 as [a|status msg'|].
    + destruct Hrest as (tr2 & Hr & ->). exists tr2. split; auto.
    + destruct Hrest as (-> & ->). split; reflexivity.
    + destruct Hrest as (-> & ->). split; reflexivity.
  - run_back H.
    match goal with H : exec _ _ _ |- _ => apply IH in H;
      destruct H as (tr1 & o1 & Hp & Hrest) end.
    exists (EvPrint msg :: tr1), o1.
    split; [constructor; assumption|].
    destruct o1 as [a|status msg'|].
    + destruct Hrest as (tr2 & Hr & ->). exists tr2. split; auto.
    + destruct Hrest as (-> & ->). split; reflexivity.
    + destruct Hrest as (-> & ->). split; reflexivity.
Qed.

(** The key a successful [genCertPair] returns is of the kind the
    parameters select. *)
Lemma genCertPair_key_kinds (L : GoLib) (cp : CertParams L)
    (rd rd' : Reader L)
    (priv : PrivateKey (RsaPrivateKey L) (EcdsaPrivateKey L))
    (derBytes : option bytes) :
  genCertPair L cp rd = ((priv, derBytes, None), rd') ->
  match priv with
  | RsaPriv _ => Rsa cp = true
  | EcdsaPriv _ => Rsa cp = false /\ In (EcdsaCurve cp) supported_curves
  | NilPriv => Rsa cp = false /\ ~ In (EcdsaCurve cp) supported_curves
  end.
Proof.
  rewrite genCertPair_steps.
  pose proof (generateKey_kinds L cp rd) as Hk.
  destruct (generateKey L cp rd) as [[priv0 [cause|]] rd1]; [discriminate|].
  destruct (rand_Int L rd1 (Z.shiftl 1 128)) as [[n|cause] rd2];
    [|discriminate].
  destruct (x509_CreateCertificate L rd2 (newTemplate L cp n)
              (newTemplate L cp n) (publicKey L priv0) priv0)
    as [[der|cause] rd3]; [|discriminate].
  intros H. injection H as -> _ _.
  destruct priv as [k|k|]; simpl in Hk |- *; tauto.
Qed.

(** What [main] hands to [GenerateToFile] selects RSA or a curve of the
    four; it stops before that with status 1 only. *)
Lemma main_params_kinds (L : GoLib) (f : Flags) (now : Time L) :
  match main_params L f now with
  | Returns cp => Rsa cp = true \/ In (EcdsaCurve cp) supported_curves
  | Exits status _ => status = 1
  | Panics => False
  end.
Proof.
  unfold main_params.
  destruct (Z.of_nat (String.length (host f)) =? 0); [reflexivity|].
  assert (Hsel : match main_key_selection f with
                 | (rsa, _, curve) => rsa = true \/ In curve supported_curves
                 end).
  { unfold main_key_selection, ECDSACurveFromString.
    destruct (String.eqb (ecdsaCurve f) "P224"); [simpl; auto|].
    destruct (String.eqb (ecdsaCurve f) "P256"); [simpl; auto|].
    destruct (String.eqb (ecdsaCurve f) "P384"); [simpl; auto|].
    destruct (String.eqb (ecdsaCurve f) "P521"); [simpl; auto 6|].
    left. reflexivity. }
  destruct (main_key_selection f) as [[rsa bits] curve].
  destruct (if Z.of_nat (String.length (validFrom f)) =? 0
            then Ok now
            else time_Parse L "Jan 2 15:04:05 2006" (validFrom f))
    as [t|err]; [exact Hsel|reflexivity].
Qed.

(** No run of [GenerateToFile] prints on standard output. *)
Lemma GenerateToFile_prints_nothing (L : GoLib) (Handle : Type)
    (cp : CertParams L) (certFile keyFile : string) (rd : Reader L)
    (tr : list (event Handle)) (o : outcome (option error)) (msg : string) :
  exec (fst (GenerateToFile L Handle cp certFile keyFile rd)) tr o ->
  ~ In (EvPrint msg) tr.
Proof.
  intros Hrun Hin.
  apply GenerateToFile_runs in Hrun.
  destruct (genCertPair L cp rd) as [[[priv derBytes] [e|]] rd'].
  { destruct Hrun as [-> _]. destruct Hin. }
  destruct Hrun as [(e & -> & _)|[(c & e1 & e & -> & _)|(c & k & e1 & Hrun)]].
  - cbn in Hin. decompose [or] Hin; try discriminate; assumption.
  - known_trace. cbn in Hin. decompose [or] Hin; try discriminate; assumption.
  - cbv zeta in Hrun.
    destruct (pemBlockForKey L priv) as [[b|]|status m|].
    + destruct Hrun as (e2 & -> & _). known_trace. cbn in Hin.
      decompose [or] Hin; try discriminate; assumption.
    + destruct Hrun as (-> & _). known_trace. cbn in Hin.
      decompose [or] Hin; try discriminate; assumption.
    + destruct Hrun as (-> & _). known_trace. cbn in Hin.
      decompose [or] Hin; try discriminate; assumption.
    + destruct Hrun as (-> & _). known_trace. cbn in Hin.
      decompose [or] Hin; try discriminate; assumption.
Qed.

(** How a run of [GenerateToFile] ends, by the key selected. *)
Lemma GenerateToFile_endings (L : GoLib) (Handle : Type)
    (cp : CertParams L) (certFile keyFile : string) (rd : Reader L)
    (tr : list (event Handle)) (o : outcome (option error)) :
  exec (fst (GenerateToFile L Handle cp certFile keyFile rd)) tr o ->
  match o with
  | Returns (Some e) =>
      snd (fst (genCertPair L cp rd)) = Some e /\ tr = [] \/
      snd (fst (genCertPair L cp rd)) = None
  | Returns None => snd (fst (genCertPair L cp rd)) = None
  | Exits status _ => status = 2 /\ Rsa cp = false
  | Panics => Rsa cp = false /\ ~ In (EcdsaCurve cp) supported_curves
  end.
Proof.
  intros Hrun.
  apply GenerateToFile_runs in Hrun.
  destruct (genCertPair L cp rd) as [[[priv derBytes] [e|]] rd'] eqn:Hgen.
  { destruct Hrun as [-> ->]. left. split; reflexivity. }
  apply genCertPair_key_kinds in Hgen. simpl snd.
  destruct Hrun as [(e & _ & ->)|[(c & e1 & e & _ & ->)|(c & k & e1 & Hrun)]].
  - right. reflexivity.
  - right. reflexivity.
  - cbv zeta in Hrun.
    destruct priv as [key|key|]; simpl in Hrun.
    + destruct Hrun as (e2 & _ & ->). reflexivity.
    + destruct (x509_MarshalECPrivateKey L key) as [b|err].
      * destruct Hrun as (e2 & _ & ->). reflexivity.
      * destruct Hrun as (_ & ->). split; [reflexivity|apply Hgen].
    + destruct Hrun as (_ & ->). exact Hgen.
Qed.

Lemma GenerateToFile_on_failure (L : GoLib) (Handle : Type)
    (cp : CertParams L) (certFile keyFile : string) (rd : Reader L)
    (tr : list (event Handle)) (o : outcome (option error)) (e : error) :
  snd (fst (genCertPair L cp rd)) = Some e ->
  exec (fst (GenerateToFile L Handle cp certFile keyFile rd)) tr o ->
  tr = [] /\ o = Returns (Some e).
Proof.
  intros Hgen Hrun.
  apply GenerateToFile_runs in Hrun.
  destruct (genCertPair L cp rd) as [[[priv derBytes] [x|]] rd'];
    simpl in Hgen; [|discriminate Hgen].
  injection Hgen as ->. exact Hrun.
Qed.

(** A run of a call that returns, followed by a run of the continuation,
    is a run of the two in sequence. *)
Lemma exec_sys_then_returns (Handle A B : Type) (p : sys Handle A)
    (rest : A -> sys Handle B) (tr1 tr2 : list (event Handle)) (a : A)
    (o : outcome B) :
  exec p tr1 (Returns a) ->
  exec (rest a) tr2 o ->
  exec (sys_then Handle p rest) (tr1 ++ tr2)%list o.
Proof.
  intros Hp Hrest.
  remember (Returns a) as o1 eqn:Ho1.
  induction Hp as [o0|name k r tr o0 Hp IH|name flag perm k r tr o0 Hp IH
                   |out b k err tr o0 Hp IH|out k tr o0 Hp IH
                   |f k tr o0 Hp IH|msg k tr o0 Hp IH|msg k tr o0 Hp IH];
    simpl; try (constructor; apply IH; exact Ho1).
  subst o0. exact Hrest.
Qed.

(** A run of a call that exits is a run of whatever it is followed by. *)
Lemma exec_sys_then_exits (Handle A B : Type) (p : sys Handle A)
    (rest : A -> sys Handle B) (tr : list (event Handle)) (status : Z)
    (msg : string) :
  exec p tr (Exits status msg) ->
  exec (sys_then Handle p rest) tr (Exits status msg).
Proof.
  intros Hp.
  remember (Exits status msg) as o1 eqn:Ho1.
  induction Hp as [o0|name k r tr o0 Hp IH|name flag perm k r tr o0 Hp IH
                   |out b k err tr o0 Hp IH|out k tr o0 Hp IH
                   |f k tr o0 Hp IH|m k tr o0 Hp IH|m k tr o0 Hp IH];
    simpl; try (constructor; apply IH; exact Ho1).
  subst o0. constructor.
Qed.

(** [pemBlockForKey] exits only on an ECDSA key that cannot be marshalled,
    with status 2 and the marshalling error on standard error. *)
Lemma pemBlockForKey_exits (L : GoLib)
    (priv : PrivateKey (RsaPrivateKey L) (EcdsaPrivateKey L)) (status : Z)
    (msg : string) :
  pemBlockForKey L priv = Exits status msg ->
  status = 2 /\
  exists (k : EcdsaPrivateKey L) (err : error),
    priv = EcdsaPriv k /\
    x509_MarshalECPrivateKey L k = Err err /\
    msg = "Unable to marshal ECDSA private key: " ++ err.
Proof.
  destruct priv as [k|k|]; simpl; try discriminate.
  destruct (x509_MarshalECPrivateKey L k) as [b|err] eqn:Em;
    [discriminate|].
  intros H. injection H as <- <-.
  split; [reflexivity|]. exists k, err.
  split; [reflexivity|]. split; [exact Em|reflexivity].
Qed.

(** A run of [GenerateToFile] that exits does so because the ECDSA key
    generated cannot be marshalled. *)
Lemma GenerateToFile_exit (L : GoLib) (Handle : Type) (cp : CertParams L)
    (certFile keyFile : string) (rd : Reader L) (tr : list (event Handle))
    (status : Z) (msg : string) :
  exec (fst (GenerateToFile L Handle cp certFile keyFile rd)) tr
    (Exits status msg) ->
  status = 2 /\
  exists (k : EcdsaPrivateKey L) (err : error),
    fst (fst (fst (genCertPair L cp rd))) = EcdsaPriv k /\
    x509_MarshalECPrivateKey L k = Err err /\
    msg = "Unable to marshal ECDSA private key: " ++ err.
Proof.
  intros Hrun.
  apply GenerateToFile_runs in Hrun.
  destruct (genCertPair L cp rd) as [[[priv derBytes] [e|]] rd'].
  { destruct Hrun as [_ Ho]. discriminate Ho. }
  simpl fst.
  destruct Hrun as [(e & _ & Ho)|[(c & e1 & e & _ & Ho)|(c & k & e1 & Hrun)]];
    try discriminate Ho.
  cbv zeta in Hrun.
  destruct (pemBlockForKey L priv) as [[b|]|status0 msg0|] eqn:Hblock.
  - destruct Hrun as (e2 & _ & Ho). discriminate Ho.
  - destruct Hrun as (_ & Ho). discriminate Ho.
  - destruct Hrun as (_ & Ho). injection Ho as <- <-.
    apply pemBlockForKey_exits in Hblock.
    destruct Hblock as (Hs & key & err & -> & Hm & Hmsg).
    split; [exact Hs|]. exists key, err. repeat split; assumption.
  - destruct Hrun as (_ & Ho). discriminate Ho.
Qed.

(** X19. The exit status of the command.  Where [flag.Parse] ends the
    process, that is how [main] ends, before any other call.  The flags
    parsed, [main] never panics; it exits with status 1 only before
    anything is generated, having made no call, and otherwise only with
    status 2, when an ECDSA key cannot be marshalled.  Every error
    [GenerateToFile] returns, be it of the generation or of opening a
    file, is printed as [Couldn't generate certs: ...] on standard output
    in the last call of [main], which then returns, that is, ends with
    status 0; [GenerateToFile] itself prints nothing there.  These are
    all the runs of [main], and each of them is one. *)
Theorem main_exit_status (L : GoLib) (Handle : Type)
    (flag_Parse : list string -> outcome Flags) (args : list string)
    (now : Time L) (rd : Reader L) (tr : list (event Handle))
    (o : outcome unit) :
  exec (fst (main L Handle flag_Parse args now rd)) tr o <->
  main_run_of L Handle flag_Parse args now rd tr o.
Proof.
  unfold main, main_run_of, main_with_flags.
  destruct (flag_Parse args) as [f|status msg|].
  2:{ simpl fst. split.
      - intros H. run_back H. split; reflexivity.
      - intros [-> ->]. constructor. }
  2:{ simpl fst. split.
      - intros H. run_back H. split; reflexivity.
      - intros [-> ->]. constructor. }
  pose proof (main_params_kinds L f now) as Hk.
  destruct (main_params L f now) as [cp|status msg|].
  - destruct (GenerateToFile L Handle cp (certFile f) (keyFile f) rd)
      as [generate rd'] eqn:Hg.
    simpl fst.
    assert (Hsame : forall tr1 o1,
               exec generate tr1 o1 <->
               exec (fst (GenerateToFile L Handle cp (certFile f) (keyFile f)
                            rd)) tr1 o1)
      by (intros tr1 o1; rewrite Hg; reflexivity).
    split.
    + intros H.
      apply exec_sys_then in H. destruct H as (tr1 & o1 & Hrun & Hrest).
      pose proof (proj1 (Hsame tr1 o1) Hrun) as Hrun'.
      exists tr1, o1. split; [exact Hrun|].
      split.
      { intros msg.
        exact (GenerateToFile_prints_nothing L Handle cp _ _ rd tr1 o1 msg
                 Hrun'). }
      destruct o1 as [[e|]|status msg|].
      * destruct Hrest as (tr2 & Hr & ->).
        run_back Hr.
        match goal with H : exec _ _ _ |- _ => run_back H end.
        split; reflexivity.
      * destruct Hrest as (tr2 & Hr & ->).
        run_back Hr. rewrite app_nil_r. split; reflexivity.
      * destruct Hrest as (-> & ->).
        destruct (GenerateToFile_exit L Handle cp _ _ rd tr1 status msg Hrun')
          as (-> & k & err & _ & Hm & Hmsg).
        split; [reflexivity|]. split; [|split; reflexivity].
        exists k, err. split; assumption.
      * pose proof (GenerateToFile_endings L Handle cp _ _ rd tr1 _ Hrun')
          as [Hr Hn].
        destruct Hk as [Hk|Hk]; [congruence|contradiction].
    + intros (tr1 & o1 & Hrun & _ & Hrest).
      simpl fst in Hrun.
      destruct o1 as [[e|]|status msg|].
      * destruct Hrest as [-> ->].
        apply (exec_sys_then_returns Handle _ _ generate _ tr1 _ (Some e));
          [exact Hrun|].
        apply exec_Print. apply exec_Done.
      * destruct Hrest as [-> ->].
        rewrite <- (app_nil_r tr1).
        apply (exec_sys_then_returns Handle _ _ generate _ tr1 [] None);
          [exact Hrun|].
        apply exec_Done.
      * destruct Hrest as (-> & _ & -> & ->).
        apply exec_sys_then_exits. exact Hrun.
      * destruct Hrest.
  - simpl fst. split.
    + intros H. run_back H. repeat split.
    + intros (-> & -> & ->). constructor.
  - destruct Hk.
Qed.

Lemma main_exit_status_witness :
  exec (fst (main Sim.lib nat
               (fun _ =>
                  Returns (Build_Flags "localhost" "" time_Hour false 2048
                             "P256" "cert.pem" "key.pem"))
               ["-host"; "localhost"; "-ecdsa-curve"; "P256"] 0 []))
    [EvPrint
       ("Couldn't generate certs: " ++ "failed to generate private key: EOF"
        ++ newline)]
    (Returns tt).
Proof.
  apply (proj2 (main_exit_status Sim.lib nat _ _ 0 [] _ _)).
  unfold main_run_of. cbv beta iota.
  exists [], (Returns (Some "failed to generate private key: EOF")).
  split; [apply exec_Done|].
  split; [intros msg []|].
  split; reflexivity.
Defined.

(** ** The server *)

(** [GenerateToMemory] ends otherwise than by returning only when ECDSA is
    selected, and returns nothing with an error. *)
Lemma GenerateToMemory_aborts_only_ecdsa (L : GoLib) (cp : CertParams L)
    (rd : Reader L) :
  match fst (GenerateToMemory L cp rd) with
  | Returns (cert, key, Some _) => cert = None /\ key = None
  | Returns (_, _, None) => True
  | Exits _ _ | Panics => Rsa cp = false
  end.
Proof.
  unfold GenerateToMemory.
  destruct (genCertPair L cp rd) as [[[priv derBytes] [e|]] rd'] eqn:Hgen;
    simpl fst.
  - split; reflexivity.
  - apply genCertPair_key_kinds in Hgen.
    destruct priv as [k|k|]; simpl.
    + exact I.
    + destruct (x509_MarshalECPrivateKey L k); simpl; [exact I|apply Hgen].
    + apply Hgen.
Qed.

(** X20. With nil parameters [ListenAndServeTLS] never ends the process: it
    gets to listen, on the address and with the handler given and with
    exactly one certificate, the one [tls.X509KeyPair] makes of the pair
    this call generated from the default parameters; or it returns, as it
    is, the error of the generation or of loading the pair.  With
    parameters of the caller it can exit or panic only if they select
    ECDSA. *)
Theorem ListenAndServeTLS_listens_or_returns (L : GoLib)
    (Handler tls_Certificate : Type)
    (tls_X509KeyPair : option bytes -> option bytes -> result tls_Certificate)
    (addr : string) (handler : Handler) (now : Time L) (rd : Reader L) :
  match ListenAndServeTLS L Handler tls_Certificate tls_X509KeyPair addr
          handler None now rd with
  | (Listening a h certs, rd') =>
      a = addr /\ h = handler /\
      exists cert key certificate,
        GenerateToMemory L (NewDefaultParams L now) rd
        = (Returns (cert, key, None), rd') /\
        tls_X509KeyPair cert key = Ok certificate /\
        certs = [certificate]
  | (NotListening (Returns e), rd') =>
      GenerateToMemory L (NewDefaultParams L now) rd
      = (Returns (None, None, Some e), rd') \/
      exists cert key,
        GenerateToMemory L (NewDefaultParams L now) rd
        = (Returns (cert, key, None), rd') /\
        tls_X509KeyPair cert key = Err e
  | (NotListening _, _) => False
  end /\
  forall p : CertParams L,
    match fst (ListenAndServeTLS L Handler tls_Certificate tls_X509KeyPair
                 addr handler (Some p) now rd) with
    | NotListening (Exits _ _) | NotListening Panics => Rsa p = false
    | _ => True
    end.
Proof.
  split.
  - unfold ListenAndServeTLS.
    pose proof (GenerateToMemory_aborts_only_ecdsa L (NewDefaultParams L now)
                  rd) as Hd.
    destruct (GenerateToMemory L (NewDefaultParams L now) rd)
      as [[[[cert key] [e|]]|status msg|] rd']; simpl fst in Hd.
    + destruct Hd as [-> ->]. left. reflexivity.
    + destruct (tls_X509KeyPair cert key) as [certificate|e] eqn:Ekp.
      * split; [reflexivity|]. split; [reflexivity|].
        exists cert, key, certificate. repeat split. exact Ekp.
      * right. exists cert, key. split; [reflexivity|exact Ekp].
    + discriminate Hd.
    + discriminate Hd.
  - intros p. unfold ListenAndServeTLS.
    pose proof (GenerateToMemory_aborts_only_ecdsa L p rd) as Hp.
    destruct (GenerateToMemory L p rd)
      as [[[[cert key] [e|]]|status msg|] rd']; simpl fst in Hp |- *.
    + exact I.
    + destruct (tls_X509KeyPair cert key); exact I.
    + exact Hp.
    + exact Hp.
Qed.
